(** * mail-confirm: a shallow embedding of [src/index.js]

    The development follows the source file top to bottom:
    - [Js]: the fragment of the JavaScript runtime the source calls
      ([String.prototype.split], [substring], [parseInt], [Array.prototype.indexOf],
      [Array.prototype.sort], [RegExp.prototype.test]);
    - [Pattern]: [MailConfirm.resolvePattern];
    - [Mx]: [MailConfirm.resolveMx];
    - [Smtp]: [MailConfirm.resolveSmtpMailbox], an event-driven socket session;
    - [MailConfirm]: the constructor and [check()].
    The properties come after the definitions, module by module.

    JavaScript strings are modelled by [string] (sequences of 8-bit code
    units), numbers that come out of [parseInt] by [jsnum] (an integer or
    NaN), arrays by lists, [undefined] by [None]. *)

From Stdlib Require Import ZArith Lia Bool Ascii String.
From Stdlib Require Import Sorting.Sorted Sorting.Permutation.
From stdpp Require Import base list strings.

Local Open Scope Z_scope.

(* ===================================================================== *)
(** ** The JavaScript runtime used by the source *)
(* ===================================================================== *)

Module Js.

(** A thrown or rejected value: only the message is observable here. *)
Record JsError := MkError { err_message : string }.

(** The result of [parseInt]: an integer or NaN. *)
Inductive jsnum :=
| NaN
| Num (z : Z).

(** [a > b] on numbers: every comparison with NaN is false. *)
Definition gt (a : jsnum) (b : Z) : bool :=
  match a with
  | NaN => false
  | Num z => b <? z
  end.

(** [a === b] on numbers against an integer literal. *)
Definition strict_eq (a : jsnum) (b : Z) : bool :=
  match a with
  | NaN => false
  | Num z => z =? b
  end.

(** [s.split(sep)] for a one-character separator: the first piece and the
    remaining ones. The result of [split] is never empty. *)
Fixpoint split_parts (sep : ascii) (s : string) : string * list string :=
  match s with
  | EmptyString => (EmptyString, [])
  | String c s' =>
      let '(h, t) := split_parts sep s' in
      if Ascii.eqb c sep then (EmptyString, h :: t) else (String c h, t)
  end.

Definition split (sep : ascii) (s : string) : list string :=
  let '(h, t) := split_parts sep s in h :: t.

(** [s.substring(a, b)]: the arguments are swapped when [a > b] and the
    range is clamped to the string. *)
Definition substring (a b : nat) (s : string) : string :=
  String.substring (Nat.min a b) (Nat.max a b - Nat.min a b) s.

(** [arr.indexOf(x)] on an array of strings: the first index holding a value
    [===] to [x], or -1. An undefined [x] equals no string. *)
Fixpoint indexOf_from (i : Z) (x : string) (arr : list string) : Z :=
  match arr with
  | [] => -1
  | y :: arr' => if String.eqb y x then i else indexOf_from (i + 1) x arr'
  end.

Definition indexOf (arr : list string) (x : option string) : Z :=
  match x with
  | Some x => indexOf_from 0 x arr
  | None => -1
  end.

(** [arr.sort(cmp)]: the order is that of the comparator, [cmp a b <= 0]
    meaning that [a] may stay before [b]; elements that compare equal keep
    their order. Every stable sort computes the same array; this one inserts. *)
Section Sort.
Context {A : Type} (cmp : A -> A -> Z).

Fixpoint sort_insert (x : A) (l : list A) : list A :=
  match l with
  | [] => [x]
  | y :: l' => if cmp x y <=? 0 then x :: l else y :: sort_insert x l'
  end.

Fixpoint sort (l : list A) : list A :=
  match l with
  | [] => []
  | x :: l' => sort_insert x (sort l')
  end.
End Sort.

(** What an [await] on a promise observes: its value, its rejection, or
    nothing at all when the promise never settles. The same type serves as
    the state of a promise. *)
Inductive awaited (A : Type) :=
| Fulfilled (a : A)
| Rejected (e : JsError)
| Pending.
Arguments Fulfilled {A} a.
Arguments Rejected {A} e.
Arguments Pending {A}.

(** Carriage return, line feed. *)
Definition CRLF : string := String "013" (String "010" EmptyString).

(** White space skipped by [parseInt] and matched by [\s] (code units below 256). *)
Definition is_white_space (c : ascii) : bool :=
  let n := nat_of_ascii c in
  ((9 <=? n) && (n <=? 13) || (n =? 32) || (n =? 160))%nat.

(** Line terminators, which [.] does not match. *)
Definition is_line_terminator (c : ascii) : bool :=
  let n := nat_of_ascii c in ((n =? 10) || (n =? 13))%nat.

Definition in_range (lo hi c : ascii) : bool :=
  ((nat_of_ascii lo <=? nat_of_ascii c) && (nat_of_ascii c <=? nat_of_ascii hi))%nat.

(** The value of a digit in radix 10 or 16. *)
Definition digit_value (radix : Z) (c : ascii) : option Z :=
  let n := Z.of_nat (nat_of_ascii c) in
  if in_range "0" "9" c then Some (n - 48)
  else if (radix =? 16) && in_range "a" "f" c then Some (n - 97 + 10)
  else if (radix =? 16) && in_range "A" "F" c then Some (n - 65 + 10)
  else None.

Fixpoint skip_white_space (s : string) : string :=
  match s with
  | String c s' => if is_white_space c then skip_white_space s' else s
  | EmptyString => s
  end.

(** The longest prefix of radix digits, read left to right; [None] when
    there is no digit at all. *)
Fixpoint read_digits (radix : Z) (acc : option Z) (s : string) : option Z :=
  match s with
  | String c s' =>
      match digit_value radix c with
      | Some d => read_digits radix (Some (radix * default 0 acc + d)) s'
      | None => acc
      end
  | EmptyString => acc
  end.

(** [parseInt(s)] with no radix argument: leading white space, an optional
    sign, an optional [0x]/[0X] prefix, then digits; NaN without digits.
    (Negative zero is identified with zero.) *)
Definition parseInt (s : string) : jsnum :=
  let s1 := skip_white_space s in
  let '(sign, s2) :=
    match s1 with
    | String "-" r => (-1, r)
    | String "+" r => (1, r)
    | _ => (1, s1)
    end in
  let '(radix, s3) :=
    match s2 with
    | String "0" (String "x" r) => (16, r)
    | String "0" (String "X" r) => (16, r)
    | _ => (10, s2)
    end in
  match read_digits radix None s3 with
  | Some n => Num (sign * n)
  | None => NaN
  end.

(** [String(v)] of a possibly undefined string, as string concatenation does it. *)
Definition to_string (v : option string) : string :=
  match v with
  | Some s => s
  | None => "undefined"
  end.

End Js.

(* ===================================================================== *)
(** ** Regular expressions: [RegExp.prototype.test] on an anchored pattern *)
(* ===================================================================== *)

(** The pattern of [resolvePattern] has no back-references, look-arounds or
    flags and is anchored at both ends, so [regex.test(s)] holds exactly when
    the whole of [s] belongs to the regular language of the pattern. The
    matcher below decides membership by derivatives; [Matches] is the
    language itself. *)
Module Regex.

Inductive regex :=
| Void
| Eps
| Class (p : ascii -> bool)
| Seq (r1 r2 : regex)
| Alt (r1 r2 : regex)
| Star (r : regex).

Definition Chr (c : ascii) : regex := Class (Ascii.eqb c).
Definition Plus (r : regex) : regex := Seq r (Star r).
Definition Opt (r : regex) : regex := Alt Eps r.

(** [r{1,3}] and [r{2,}]. *)
Definition Rep1to3 (r : regex) : regex := Seq r (Opt (Seq r (Opt r))).
Definition Rep2plus (r : regex) : regex := Seq r (Seq r (Star r)).

Fixpoint nullable (r : regex) : bool :=
  match r with
  | Void => false
  | Eps => true
  | Class _ => false
  | Seq r1 r2 => nullable r1 && nullable r2
  | Alt r1 r2 => nullable r1 || nullable r2
  | Star _ => true
  end.

Fixpoint deriv (c : ascii) (r : regex) : regex :=
  match r with
  | Void => Void
  | Eps => Void
  | Class p => if p c then Eps else Void
  | Seq r1 r2 =>
      if nullable r1 then Alt (Seq (deriv c r1) r2) (deriv c r2)
      else Seq (deriv c r1) r2
  | Alt r1 r2 => Alt (deriv c r1) (deriv c r2)
  | Star r1 => Seq (deriv c r1) (Star r1)
  end.

Fixpoint test (r : regex) (s : string) : bool :=
  match s with
  | EmptyString => nullable r
  | String c s' => test (deriv c r) s'
  end.

(** The language of a pattern. *)
Inductive Matches : regex -> string -> Prop :=
| MEps : Matches Eps EmptyString
| MClass p c : p c = true -> Matches (Class p) (String c EmptyString)
| MSeq r1 r2 s1 s2 :
    Matches r1 s1 -> Matches r2 s2 -> Matches (Seq r1 r2) (s1 +:+ s2)
| MAltL r1 r2 s : Matches r1 s -> Matches (Alt r1 r2) s
| MAltR r1 r2 s : Matches r2 s -> Matches (Alt r1 r2) s
| MStarNil r : Matches (Star r) EmptyString
| MStarCons r c s1 s2 :
    Matches r (String c s1) -> Matches (Star r) s2 ->
    Matches (Star r) (String c s1 +:+ s2).

(** *** The pattern of [resolvePattern] *)

(** The double quote character. *)
Definition dquote : ascii := "034"%char.

(** The negated class of the local part: none of the characters
    less-than, greater-than, parentheses, square brackets, backslash, dot,
    comma, semicolon, colon, white space, at sign, double quote. *)
Definition atom_char (c : ascii) : bool :=
  negb (existsb (Ascii.eqb c)
          ["<"; ">"; "("; ")"; "["; "]"; "\"; "."; ","; ";"; ":"; "@"; dquote]%char
        || Js.is_white_space c).

(** [.]: any character but a line terminator. *)
Definition dot_char (c : ascii) : bool := negb (Js.is_line_terminator c).

(** [[0-9]], [[a-zA-Z\-0-9]] and [[a-zA-Z]]. *)
Definition digit_char (c : ascii) : bool := Js.in_range "0" "9" c.
Definition alpha_char (c : ascii) : bool :=
  Js.in_range "a" "z" c || Js.in_range "A" "Z" c.
Definition label_char (c : ascii) : bool :=
  alpha_char c || Ascii.eqb c "-" || digit_char c.

(** Dot-separated runs of class characters, or a non-empty run of [.]
    between two double quotes. *)
Definition local_part_re : regex :=
  Alt (Seq (Plus (Class atom_char))
           (Star (Seq (Chr ".") (Plus (Class atom_char)))))
      (Seq (Chr dquote) (Seq (Plus (Class dot_char)) (Chr dquote))).

(** [\[[0-9]{1,3}\.[0-9]{1,3}\.[0-9]{1,3}\.[0-9]{1,3}]] *)
Definition ip_literal_re : regex :=
  let octet := Rep1to3 (Class digit_char) in
  Seq (Chr "[")
   (Seq octet (Seq (Chr ".") (Seq octet (Seq (Chr ".")
     (Seq octet (Seq (Chr ".") (Seq octet (Chr "]")))))))).

(** [([a-zA-Z\-0-9]+\.)+[a-zA-Z]{2,}] *)
Definition domain_name_re : regex :=
  Seq (Plus (Seq (Plus (Class label_char)) (Chr ".")))
      (Rep2plus (Class alpha_char)).

(** The whole pattern, between [^] and [$]. *)
Definition email_re : regex :=
  Seq local_part_re (Seq (Chr "@") (Alt ip_literal_re domain_name_re)).

End Regex.


(* ===================================================================== *)
(** ** [MailConfirm.resolvePattern] *)
(* ===================================================================== *)

Module Pattern.

(** [static resolvePattern(emailAddress, invalidMailboxKeywords = [])] *)
Definition resolvePattern
    (emailAddress : string) (invalidMailboxKeywords : option (list string)) : bool :=
  let invalidMailboxKeywords := default [] invalidMailboxKeywords in
  let mailbox := Js.split "@" emailAddress !! 0%nat in
  let isValidPattern :=
    Regex.test Regex.email_re emailAddress
    || (Js.indexOf invalidMailboxKeywords mailbox =? -1) in
  isValidPattern.

(** The instance method [_resolvePattern] forwards to the static one. *)
Definition _resolvePattern
    (emailAddress : string) (invalidMailboxKeywords : option (list string)) : bool :=
  resolvePattern emailAddress (Some (default [] invalidMailboxKeywords)).

(** The words of the specification: the local part is the substring before
    the at sign (the whole string when there is none). *)
Fixpoint local_part (email : string) : string :=
  match email with
  | EmptyString => EmptyString
  | String c rest => if Ascii.eqb c "@" then EmptyString else String c (local_part rest)
  end.

End Pattern.

(* ===================================================================== *)
(** ** [MailConfirm.resolveMx] *)
(* ===================================================================== *)

Module Mx.

(** An entry of [dns.resolveMx]. *)
Record MxRecord := { priority : Z; exchange : string }.

(** The comparator [(a, b) => a.priority - b.priority]. *)
Definition by_priority (a b : MxRecord) : Z := priority a - priority b.

(** Ascending priority, the order the specification asks for. *)
Definition priority_le (a b : MxRecord) : Prop := priority a <= priority b.

Section Resolver.
(** The promisified [dns.resolveMx]: what awaiting it yields for a host
    name (which is undefined for an address without at sign). *)
Variable dns_resolveMx : option string -> Js.awaited (list MxRecord).

(** [static async resolveMx(hostname)]: the [try] covers the await and
    the sort, the [catch] returns the empty array. *)
Definition resolveMx (hostname : option string) : Js.awaited (list MxRecord) :=
  match dns_resolveMx hostname with
  | Js.Fulfilled mxRecords => Js.Fulfilled (Js.sort by_priority mxRecords)
  | Js.Rejected err => Js.Fulfilled []
  | Js.Pending => Js.Pending
  end.

(** The instance method [_resolveMx] forwards to the static one. *)
Definition _resolveMx (hostname : option string) : Js.awaited (list MxRecord) :=
  resolveMx hostname.
End Resolver.

End Mx.

(* ===================================================================== *)
(** ** [MailConfirm.resolveSmtpMailbox] *)
(* ===================================================================== *)

Module Smtp.

(** An entry of the transcript: [{command, message, status}]. *)
Record SmtpMessage := {
  command : option string;
  message : string;
  status : Js.jsnum
}.

(** The events of the socket. The source registers listeners for [next],
    [error] and [data] only; [next] is the one it emits itself, the others
    come from the network layer. *)
Inductive event :=
| EvNext
| EvError (err : Js.JsError)
| EvData (data : string)
| EvTimeout
| EvConnect
| EvEnd
| EvClose.

(** The variables of the promise executor: the closure variables [step]
    and [smtpMessages], the socket [smtp] (where it connects, its idle
    timeout, the arguments of its [write] calls in order, whether [end] was
    called), and the promise ([resolve] and [reject] settle it once). *)
Record Session := {
  step : nat;
  smtpMessages : list SmtpMessage;
  remote : string * Z;
  idle_timeout : Z;
  writes : list string;
  ended : bool;
  promise : Js.awaited (list SmtpMessage)
}.

Definition set_promise (v : Js.awaited (list SmtpMessage)) (s : Session) : Session :=
  {| step := step s; smtpMessages := smtpMessages s; remote := remote s;
     idle_timeout := idle_timeout s; writes := writes s; ended := ended s;
     promise := v |}.

(** [resolve(v)] and [reject(err)]: a settled promise stays as it is. The
    code resolves with the array [smtpMessages] itself, to which the [data]
    listener goes on pushing; what is kept here is the content of the array
    at the moment the promise resolves, which is what the awaiting caller
    reads first. What the array holds later is [smtpMessages] of the
    session. *)
Definition resolve (v : list SmtpMessage) (s : Session) : Session :=
  match promise s with
  | Js.Pending => set_promise (Js.Fulfilled v) s
  | _ => s
  end.

Definition reject (err : Js.JsError) (s : Session) : Session :=
  match promise s with
  | Js.Pending => set_promise (Js.Rejected err) s
  | _ => s
  end.

(** [smtp.write(line)] *)
Definition smtp_write (line : string) (s : Session) : Session :=
  {| step := step s; smtpMessages := smtpMessages s; remote := remote s;
     idle_timeout := idle_timeout s; writes := writes s ++ [line];
     ended := ended s; promise := promise s |}.

(** [smtp.end(callback)]: the socket is closed and the callback runs once it
    has finished; no event is taken to be delivered in between. *)
Definition smtp_end (callback : Session -> Session) (s : Session) : Session :=
  callback
    {| step := step s; smtpMessages := smtpMessages s; remote := remote s;
       idle_timeout := idle_timeout s; writes := writes s; ended := true;
       promise := promise s |}.

Definition incr_step (s : Session) : Session :=
  {| step := S (step s); smtpMessages := smtpMessages s; remote := remote s;
     idle_timeout := idle_timeout s; writes := writes s; ended := ended s;
     promise := promise s |}.

(** [smtpMessages.push(m)] *)
Definition push (m : SmtpMessage) (s : Session) : Session :=
  {| step := step s; smtpMessages := smtpMessages s ++ [m]; remote := remote s;
     idle_timeout := idle_timeout s; writes := writes s; ended := ended s;
     promise := promise s |}.




Section Probe.
(** The destructured argument [{ emailAddress, mxRecords, timeout, mailFrom }]. *)
Variables (emailAddress : string) (mxRecords : list Mx.MxRecord)
          (timeout : Z) (mailFrom : string).

Section Listeners.
(** [const host = mxRecords[0].exchange] *)
Variable host : string.

Definition commands : list string :=
  [ "HELO " +:+ host;
    "MAIL FROM: <" +:+ mailFrom +:+ ">";
    "RCPT TO: <" +:+ emailAddress +:+ ">" ].

Definition stepMax : nat := (length commands - 1)%nat.

(** The line [commands[step] + '\r\n']. *)
Definition line (step : nat) : string :=
  Js.to_string (commands !! step) +:+ Js.CRLF.

(** [smtp.on('next', ...)] *)
Definition on_next (s : Session) : Session :=
  if (step s <? stepMax)%nat then
    incr_step (smtp_write (line (step s)) s)
  else
    smtp_end (fun s' => resolve (smtpMessages s') s') s.

(** [smtp.on('error', ...)] *)
Definition on_error (err : Js.JsError) (s : Session) : Session :=
  smtp_end (reject err) s.

(** [smtp.on('data', ...)] *)
Definition on_data (data : string) (s : Session) : Session :=
  let status := Js.parseInt (Js.substring 0 3 data) in
  let s := push {| command := commands !! step s;
                   message := data;
                   status := status |} s in
  if Js.gt status 200 then on_next s else s.

(** [smtp.emit(ev)]: the listener registered for the event runs; an
    event without listener changes nothing of what the executor holds.
    What Node does of itself on such an event (it closes the socket when
    the server ends the connection) is not part of the session: [ended]
    records the calls of [end] the listeners make. *)
Definition emit (ev : event) (s : Session) : Session :=
  match ev with
  | EvNext => on_next s
  | EvError err => on_error err s
  | EvData data => on_data data s
  | EvTimeout | EvConnect | EvEnd | EvClose => s
  end.

(** The state after [net.createConnection], [setEncoding] and
    [setTimeout], for a timeout the socket accepts. ([setTimeout] throws
    for a negative timeout: the promise is then rejected before any
    listener is registered and no event reaches the executor.) *)
Definition connected : Session :=
  {| step := 0; smtpMessages := []; remote := (host, 25);
     idle_timeout := timeout; writes := []; ended := false;
     promise := Js.Pending |}.

(** The events of the network layer, delivered one after the other. *)
Definition deliver (evs : list event) (s : Session) : Session :=
  fold_left (fun s ev => emit ev s) evs s.

(** What holds of every session: the step counter never passes
    [stepMax], the writes are the first [step] lines of the script, and
    a resolved promise means that [step] is [stepMax]. *)
Definition session_inv (s : Session) : Prop :=
  (step s <= 2)%nat
  /\ writes s = take (step s) [line 0; line 1]
  /\ (forall v, promise s = Js.Fulfilled v -> step s = 2%nat).
End Listeners.

(** The executor throws on [mxRecords[0].exchange] when the array is
    empty, which rejects the promise before any socket exists. *)
Definition no_socket : Session :=
  {| step := 0; smtpMessages := []; remote := (EmptyString, 0);
     idle_timeout := 0; writes := []; ended := false;
     promise :=
       Js.Rejected
         (Js.MkError
            "Cannot read properties of undefined (reading 'exchange')") |}.

(** [static resolveSmtpMailbox({...})] run against the events the network
    layer delivers: the final state of the session. *)
Definition session (evs : list event) : Session :=
  match mxRecords !! 0%nat with
  | Some mx => deliver (Mx.exchange mx) evs (connected (Mx.exchange mx))
  | None => no_socket
  end.

(** What [await resolveSmtpMailbox({...})] observes: the transcript as it
    is when the promise resolves, which is when the awaiting caller reads it. *)
Definition resolveSmtpMailbox (evs : list event) : Js.awaited (list SmtpMessage) :=
  promise (session evs).
End Probe.

(** A server with one MX record whose replies are all positive. *)
Definition example_mx : list Mx.MxRecord :=
  [ {| Mx.priority := 10; Mx.exchange := "mx.example.org" |} ].

Definition positive_replies : list event :=
  [ EvData "220 mx.example.org ESMTP ready";
    EvData "250 mx.example.org at your service";
    EvData "250 2.1.0 OK" ].

End Smtp.


(* ===================================================================== *)
(** ** The class [MailConfirm]: constructor and [check()] *)
(* ===================================================================== *)

Module MailConfirm.

(** The argument of the constructor; the optional members may be undefined. *)
Record Config := {
  cfg_emailAddress : string;
  cfg_invalidMailboxKeywords : option (list string);
  cfg_timeout : option Z;
  cfg_mailFrom : option string
}.

(** [this.state] *)
Record State := {
  (* args *)
  emailAddress : string;
  timeout : Z;
  invalidMailboxKeywords : list string;
  mailFrom : string;
  (* helpers *)
  mailbox : option string;
  hostname : option string;
  mxRecords : list Mx.MxRecord;
  smtpMessages : list Smtp.SmtpMessage;
  (* results *)
  isValidPattern : bool;
  isValidMx : bool;
  isValidMailbox : bool;
  result : string
}.

(** [v || d] for a number (0 is falsy) and for a string (the empty string
    is falsy). *)
Definition number_or (v : option Z) (d : Z) : Z :=
  match v with
  | Some n => if n =? 0 then d else n
  | None => d
  end.

Definition string_or (v : option string) (d : string) : string :=
  match v with
  | Some EmptyString | None => d
  | Some s => s
  end.

(** [constructor({ emailAddress, invalidMailboxKeywords, timeout, mailFrom })] *)
Definition constructor (cfg : Config) : State :=
  {| emailAddress := cfg_emailAddress cfg;
     timeout := number_or (cfg_timeout cfg) 2000;
     invalidMailboxKeywords := default [] (cfg_invalidMailboxKeywords cfg);
     mailFrom := string_or (cfg_mailFrom cfg) "email@example.org";
     mailbox := Js.split "@" (cfg_emailAddress cfg) !! 0%nat;
     hostname := Js.split "@" (cfg_emailAddress cfg) !! 1%nat;
     mxRecords := [];
     smtpMessages := [];
     isValidPattern := false;
     isValidMx := false;
     isValidMailbox := false;
     result := EmptyString |}.

(** The members of [this.state]. *)
Inductive Field :=
| F_emailAddress | F_timeout | F_invalidMailboxKeywords | F_mailFrom
| F_mailbox | F_hostname | F_mxRecords | F_smtpMessages
| F_isValidPattern | F_isValidMx | F_isValidMailbox | F_result.

(** The assignments [this.state.f = v] that [check] makes. *)
Inductive Assignment :=
| Set_isValidPattern (v : bool)
| Set_result (v : string)
| Set_mxRecords (v : list Mx.MxRecord)
| Set_isValidMx (v : bool)
| Set_smtpMessages (v : list Smtp.SmtpMessage)
| Set_isValidMailbox (v : bool).

Definition field_of (a : Assignment) : Field :=
  match a with
  | Set_isValidPattern _ => F_isValidPattern
  | Set_result _ => F_result
  | Set_mxRecords _ => F_mxRecords
  | Set_isValidMx _ => F_isValidMx
  | Set_smtpMessages _ => F_smtpMessages
  | Set_isValidMailbox _ => F_isValidMailbox
  end.

Definition store (a : Assignment) (s : State) : State :=
  let upd (p : bool) (m : list Mx.MxRecord) (t : list Smtp.SmtpMessage)
          (x b : bool) (r : string) :=
    {| emailAddress := emailAddress s; timeout := timeout s;
       invalidMailboxKeywords := invalidMailboxKeywords s;
       mailFrom := mailFrom s; mailbox := mailbox s; hostname := hostname s;
       mxRecords := m; smtpMessages := t;
       isValidPattern := p; isValidMx := x; isValidMailbox := b; result := r |} in
  match a with
  | Set_isValidPattern v =>
      upd v (mxRecords s) (smtpMessages s) (isValidMx s) (isValidMailbox s) (result s)
  | Set_result v =>
      upd (isValidPattern s) (mxRecords s) (smtpMessages s) (isValidMx s)
          (isValidMailbox s) v
  | Set_mxRecords v =>
      upd (isValidPattern s) v (smtpMessages s) (isValidMx s) (isValidMailbox s)
          (result s)
  | Set_isValidMx v =>
      upd (isValidPattern s) (mxRecords s) (smtpMessages s) v (isValidMailbox s)
          (result s)
  | Set_smtpMessages v =>
      upd (isValidPattern s) (mxRecords s) v (isValidMx s) (isValidMailbox s)
          (result s)
  | Set_isValidMailbox v =>
      upd (isValidPattern s) (mxRecords s) (smtpMessages s) (isValidMx s) v
          (result s)
  end.

(** The calls [check] makes to the other methods of the instance. *)
Inductive Call :=
| Call_resolvePattern (emailAddress : string) (invalidMailboxKeywords : list string)
| Call_resolveMx (hostname : option string)
| Call_resolveSmtpMailbox (emailAddress : string) (mxRecords : list Mx.MxRecord)
                          (timeout : Z) (mailFrom : string).

(** What a run does, in order. *)
Inductive Effect :=
| Assigned (a : Assignment)
| Called (c : Call).

(** The members assigned along a trace, in order. *)
Definition assigned_fields (tr : list Effect) : list Field :=
  omap (fun e => match e with
                 | Assigned a => Some (field_of a)
                 | Called _ => None
                 end) tr.

(** The members the constructor sets from the request. *)
Definition request_fields : list Field :=
  [F_emailAddress; F_timeout; F_invalidMailboxKeywords; F_mailFrom;
   F_mailbox; F_hostname].

(** A gate was reached when the method behind it was called. *)
Definition mx_gate_reached (tr : list Effect) : bool :=
  existsb (fun e => match e with
                    | Called (Call_resolveMx _) => true
                    | _ => false
                    end) tr.

Definition mailbox_gate_reached (tr : list Effect) : bool :=
  existsb (fun e => match e with
                    | Called (Call_resolveSmtpMailbox _ _ _ _) => true
                    | _ => false
                    end) tr.

(** The pattern gate passes for the state of the instance. *)
Definition pattern_passes (st : State) : Prop :=
  Pattern._resolvePattern (emailAddress st) (Some (invalidMailboxKeywords st)) = true.

(** The messages of the two errors [check] throws. *)
Definition mx_check_failed : Js.JsError := Js.MkError "MX record check failed.".
Definition mailbox_check_failed : Js.JsError := Js.MkError "Mailbox check failed.".

(** The instance while a method runs: its state and what was done so far. *)
Record Instance := {
  this_state : State;
  trace : list Effect
}.

(** How an async method ends: it returns, it throws, or it waits for ever
    on a promise that never settles. *)
Inductive Completion (A : Type) :=
| Returned (a : A)
| Threw (e : Js.JsError)
| Hung.
Arguments Returned {A} a.
Arguments Threw {A} e.
Arguments Hung {A}.

(** Computations over the instance. *)
Definition M (A : Type) : Type := Instance -> Completion A * Instance.

Definition ret {A} (a : A) : M A := fun i => (Returned a, i).

Definition bind {A B} (m : M A) (k : A -> M B) : M B :=
  fun i =>
    match m i with
    | (Returned a, i') => k a i'
    | (Threw e, i') => (Threw e, i')
    | (Hung, i') => (Hung, i')
    end.

Definition throw {A} (e : Js.JsError) : M A := fun i => (Threw e, i).

(** [try { m } catch (err) { handler err }] *)
Definition try_catch {A} (m : M A) (handler : Js.JsError -> M A) : M A :=
  fun i =>
    match m i with
    | (Threw e, i') => handler e i'
    | r => r
    end.

(** [this.state] *)
Definition get_state : M State := fun i => (Returned (this_state i), i).

(** [this.state.f = v] *)
Definition assign (a : Assignment) : M unit :=
  fun i => (Returned tt,
            {| this_state := store a (this_state i);
               trace := trace i ++ [Assigned a] |}).

(** A call of a method of the instance is recorded. *)
Definition call (c : Call) : M unit :=
  fun i => (Returned tt,
            {| this_state := this_state i; trace := trace i ++ [Called c] |}).

(** [await p] *)
Definition await {A} (p : Js.awaited A) : M A :=
  fun i =>
    match p with
    | Js.Fulfilled a => (Returned a, i)
    | Js.Rejected e => (Threw e, i)
    | Js.Pending => (Hung, i)
    end.

Declare Scope js_scope.
Delimit Scope js_scope with js.
Notation "'let!' x ':=' m 'in' k" := (bind m (fun x => k))
  (at level 10, x name, m at level 100, k at level 200) : js_scope.
Notation "m1 ';;;' m2" := (bind m1 (fun _ => m2))
  (at level 100, m2 at level 200, right associativity) : js_scope.

Section Methods.
(** The methods [check] calls through [this]: what awaiting each of them
    yields. *)
Variable _resolveMx : option string -> Js.awaited (list Mx.MxRecord).
Variable _resolveSmtpMailbox :
  string -> list Mx.MxRecord -> Z -> string -> Js.awaited (list Smtp.SmtpMessage).

Local Open Scope js_scope.

(** The mailbox check, the body of the second [try]. *)
Definition mailbox_check : M State :=
  let! st := get_state in
  let '(emailAddress, mxRecords, timeout, mailFrom) :=
    (emailAddress st, mxRecords st, timeout st, mailFrom st) in
  call (Call_resolveSmtpMailbox emailAddress mxRecords timeout mailFrom) ;;;
  let! smtpMessages :=
    await (_resolveSmtpMailbox emailAddress mxRecords timeout mailFrom) in
  assign (Set_smtpMessages smtpMessages) ;;;
  let isComplete := (length smtpMessages =? 3)%nat in
  (if isComplete then
     match smtpMessages !! 2%nat with
     | Some m =>
         if Js.strict_eq (Smtp.status m) 250 then
           assign (Set_result "Mailbox is valid.") ;;;
           assign (Set_isValidMailbox true)
         else
           assign (Set_result "Mailbox is invalid.") ;;;
           assign (Set_isValidMailbox false)
     | None => throw (Js.MkError "TypeError")
     end
   else
     assign (Set_result "Could not validate mailbox.") ;;;
     assign (Set_isValidMailbox false)) ;;;
  get_state.

(** The MX check, the body of the first [try]: [Some] is the early
    [return this.state], [None] falls through to the mailbox check. *)
Definition mx_check : M (option State) :=
  let! st := get_state in
  call (Call_resolveMx (hostname st)) ;;;
  let! mxRecords := await (_resolveMx (hostname st)) in
  let isValidMx := (0 <? length mxRecords)%nat in
  assign (Set_mxRecords mxRecords) ;;;
  assign (Set_isValidMx isValidMx) ;;;
  if negb isValidMx then
    assign (Set_result "Email server is invalid or not available.") ;;;
    let! st := get_state in ret (Some st)
  else ret None.

(** [async check()] *)
Definition check : M State :=
  let! st := get_state in
  call (Call_resolvePattern (emailAddress st) (invalidMailboxKeywords st)) ;;;
  let isValidPattern :=
    Pattern._resolvePattern (emailAddress st) (Some (invalidMailboxKeywords st)) in
  assign (Set_isValidPattern isValidPattern) ;;;
  if negb isValidPattern then
    assign (Set_result "Email pattern is invalid.") ;;;
    get_state
  else
    let! early :=
      try_catch mx_check
                (fun err => throw mx_check_failed) in
    match early with
    | Some st => ret st
    | None =>
        try_catch mailbox_check
                  (fun err => throw mailbox_check_failed)
    end.

(** A run of [check] on an instance fresh from the constructor. *)
Definition run_check (cfg : Config) : Completion State * Instance :=
  check {| this_state := constructor cfg; trace := [] |}.
End Methods.

(** [check] with the methods of the class itself, against a DNS answer per
    host name and the socket events of the connection. *)
Definition check_default
    (dns_resolveMx : option string -> Js.awaited (list Mx.MxRecord))
    (network : list Smtp.event) : M State :=
  check (Mx._resolveMx dns_resolveMx)
        (fun emailAddress mxRecords timeout mailFrom =>
           Smtp.resolveSmtpMailbox emailAddress mxRecords timeout mailFrom network).

(** A run of it on a fresh instance. *)
Definition run_check_default
    (dns_resolveMx : option string -> Js.awaited (list Mx.MxRecord))
    (network : list Smtp.event) (cfg : Config) : Completion State * Instance :=
  check_default dns_resolveMx network
                {| this_state := constructor cfg; trace := [] |}.

(** *** Scenarios *)

(** An address whose domain has no mail server, one whose server answers
    every command positively, and a resolver stub that throws. *)
Definition no_mx_cfg : Config :=
  {| cfg_emailAddress := "user@bad-domain-with-no-mx.test";
     cfg_invalidMailboxKeywords := None;
     cfg_timeout := None;
     cfg_mailFrom := None |}.

Definition user_cfg : Config :=
  {| cfg_emailAddress := "user@example.org";
     cfg_invalidMailboxKeywords := Some ["noreply"; "noemail"]%string;
     cfg_timeout := Some 0;
     cfg_mailFrom := None |}.

Definition dns_not_found : option string -> Js.awaited (list Mx.MxRecord) :=
  fun _ => Js.Rejected (Js.MkError "ENOTFOUND").

Definition dns_example : option string -> Js.awaited (list Mx.MxRecord) :=
  fun _ => Js.Fulfilled
    [ {| Mx.priority := 20; Mx.exchange := "mx2.example.org" |};
      {| Mx.priority := 10; Mx.exchange := "mx.example.org" |} ].

Definition throwing_resolver : option string -> Js.awaited (list Mx.MxRecord) :=
  fun _ => Js.Rejected (Js.MkError "stub failure").

(** The probe of the class against given socket events. *)
Definition probe_against (network : list Smtp.event)
    (emailAddress : string) (mxRecords : list Mx.MxRecord) (timeout : Z)
    (mailFrom : string) : Js.awaited (list Smtp.SmtpMessage) :=
  Smtp.resolveSmtpMailbox emailAddress mxRecords timeout mailFrom network.

Definition fresh (cfg : Config) : Instance :=
  {| this_state := constructor cfg; trace := [] |}.

End MailConfirm.


(* ===================================================================== *)
(** ** Vocabulary for the properties of sessions and runs *)
(* ===================================================================== *)

Module Transcript.
Import Smtp.

(** The events the network layer can deliver: all but [next], which only
    the [data] listener emits. *)
Definition from_network (ev : event) : bool :=
  match ev with
  | EvNext => false
  | _ => true
  end.

(** The replies among the events, in order of arrival. *)
Fixpoint replies (evs : list event) : list string :=
  match evs with
  | [] => []
  | EvData data :: evs' => data :: replies evs'
  | _ :: evs' => replies evs'
  end.

(** What an entry records of a reply: its text and its parsed status. *)
Definition reply_of (m : SmtpMessage) : string * Js.jsnum := (message m, status m).

Definition parse_reply (data : string) : string * Js.jsnum :=
  (data, Js.parseInt (Js.substring 0 3 data)).

(** The entries whose status passes the test [status > 200]. *)
Definition positive (m : SmtpMessage) : bool := Js.gt (status m) 200.

Fixpoint count_positive (msgs : list SmtpMessage) : nat :=
  match msgs with
  | [] => 0
  | m :: msgs' => ((if positive m then 1 else 0) + count_positive msgs')%nat
  end.

(** A transcript as [resolve] hands it over: it ends with a positive entry
    labelled with the last command and holds three positive entries. *)
Definition resolved_shape
    (last_command : option string) (msgs : list SmtpMessage) : Prop :=
  count_positive msgs = 3%nat
  /\ exists init m, msgs = init ++ [m] /\ positive m = true
                    /\ command m = last_command.

(** While the promise is pending the step counter counts the positive
    entries; once it is resolved, the value has the shape [resolve] gave it. *)
Definition counting (last_command : option string) (s : Session) : Prop :=
  (step s <= 2)%nat
  /\ match promise s with
     | Js.Pending => count_positive (smtpMessages s) = step s
     | Js.Fulfilled v => resolved_shape last_command v
     | Js.Rejected _ => True
     end.

(** In the sessions modelled here the listeners have called [end] exactly
    when the promise is settled. *)
Definition closed_iff_settled (s : Session) : Prop :=
  ended s = true <-> promise s <> Js.Pending.


(** The decimal digit of a value below ten. *)
Definition digit (d : nat) : ascii := ascii_of_nat (48 + d).

(** Whether a string holds an at sign. *)
Fixpoint has_at (s : string) : bool :=
  match s with
  | EmptyString => false
  | String c s' => Ascii.eqb c "@" || has_at s'
  end.

End Transcript.

Module Run.
Import MailConfirm.

(** The calls along a trace, in order. *)
Definition calls (tr : list Effect) : list Call :=
  omap (fun e => match e with
                 | Called c => Some c
                 | Assigned _ => None
                 end) tr.

(** The result strings [check] assigns. *)
Definition results : list string :=
  [ "Email pattern is invalid.";
    "Email server is invalid or not available.";
    "Mailbox is valid.";
    "Mailbox is invalid.";
    "Could not validate mailbox." ]%string.

(** The members [check] assigns behind the MX gate and behind the mailbox
    gate. *)
Definition mx_members (st : State) : list Mx.MxRecord * bool :=
  (mxRecords st, isValidMx st).

Definition mailbox_members (st : State) : list Smtp.SmtpMessage * bool :=
  (smtpMessages st, isValidMailbox st).

End Run.

(** *** More scenarios *)
Module Scenario.
Import MailConfirm.

(** A server that answers the greeting with a 150 line and then says no more. *)
Definition stalling_replies : list Smtp.event :=
  [ Smtp.EvData "220 mx.example.org ESMTP ready";
    Smtp.EvData "150 hold on" ].

(** A server that sends a 150 line before its greeting. *)
Definition slow_replies : list Smtp.event :=
  Smtp.EvData "150 please wait" :: Smtp.positive_replies.

(** A server that drops the connection after the greeting. *)
Definition broken_replies : list Smtp.event :=
  [ Smtp.EvData "220 mx.example.org ESMTP ready";
    Smtp.EvError (Js.MkError "ECONNRESET");
    Smtp.EvData "250 too late";
    Smtp.EvClose ].

(** An address without at sign whose local part is denied. *)
Definition denied_cfg : Config :=
  {| cfg_emailAddress := "noreply";
     cfg_invalidMailboxKeywords := Some ["noreply"]%string;
     cfg_timeout := Some 500;
     cfg_mailFrom := Some "probe@example.net"%string |}.

(** The instance of [denied_cfg] as an earlier run could have left it. *)
Definition used_instance : Instance :=
  {| this_state :=
       store (Set_isValidMailbox true)
         (store (Set_isValidMx true) (constructor denied_cfg));
     trace := [] |}.

Definition two_records : list Mx.MxRecord :=
  [ {| Mx.priority := 20; Mx.exchange := "mx2.example.org" |};
    {| Mx.priority := 10; Mx.exchange := "mx.example.org" |} ].

End Scenario.


(* ===================================================================== *)
(** * Properties *)
(* ===================================================================== *)


Module JsExamples.
Import Js.

Example split_two : split "@" "user@example.org" = ["user"; "example.org"]%string.
Proof. reflexivity. Qed.
Example split_none : split "@" "user" = ["user"]%string.
Proof. reflexivity. Qed.
Example split_empty : split "@" EmptyString = [EmptyString].
Proof. reflexivity. Qed.
Example split_many :
  split "@" "a@@b@" = ["a"; EmptyString; "b"; EmptyString]%string.
Proof. reflexivity. Qed.
Example parseInt_250 : parseInt (substring 0 3 "250 2.1.5 OK") = Num 250.
Proof. reflexivity. Qed.
Example parseInt_short : parseInt (substring 0 3 "25") = Num 25.
Proof. reflexivity. Qed.
Example parseInt_text : parseInt (substring 0 3 "OK 250") = NaN.
Proof. reflexivity. Qed.
Example parseInt_hex : parseInt "0x1f" = Num 31.
Proof. reflexivity. Qed.
Example parseInt_neg : parseInt " -7z" = Num (-7).
Proof. reflexivity. Qed.
Example indexOf_hit : indexOf ["a"; "b"; "b"]%string (Some "b"%string) = 1.
Proof. reflexivity. Qed.
Example indexOf_miss : indexOf ["a"; "b"]%string (Some "c"%string) = -1.
Proof. reflexivity. Qed.

End JsExamples.

Module RegexFacts.
Import Regex.

(** *** The matcher decides the language *)

Lemma append_nil_l (s : string) : EmptyString +:+ s = s.
Proof. reflexivity. Qed.

Lemma append_cons (c : ascii) (s1 s2 : string) :
  String c s1 +:+ s2 = String c (s1 +:+ s2).
Proof. reflexivity. Qed.

Lemma nullable_Matches r : nullable r = true <-> Matches r EmptyString.
Proof.
  split.
  - induction r; simpl; intros H; try discriminate.
    + constructor.
    + apply andb_true_iff in H as [H1 H2].
      change EmptyString with (EmptyString +:+ EmptyString).
      constructor; auto.
    + apply orb_true_iff in H as [H|H]; [apply MAltL | apply MAltR]; auto.
    + constructor.
  - intros H. remember EmptyString as w eqn:Hw.
    induction H; simpl; try discriminate; auto.
    + destruct s1; [|discriminate]. rewrite append_nil_l in Hw. subst s2.
      rewrite IHMatches1, IHMatches2; auto.
    + rewrite IHMatches; auto.
    + rewrite IHMatches; auto using orb_true_r.
Qed.

Lemma deriv_sound c r : forall s, Matches (deriv c r) s -> Matches r (String c s).
Proof.
  induction r; simpl; intros s H.
  - inversion H.
  - inversion H.
  - destruct (p c) eqn:Hp; inversion H; subst. now constructor.
  - destruct (nullable r1) eqn:Hn.
    + inversion H as [| |? ? s1 s2 H1 H2| ? ? ? H1 | ? ? ? H1 | |]; subst.
      * inversion H1 as [| |? ? s1 s2 H3 H4| | | |]; subst.
        change (String c (s1 +:+ s2)) with (String c s1 +:+ s2).
        constructor; auto.
      * change (String c s) with (EmptyString +:+ String c s).
        constructor; [apply nullable_Matches|]; auto.
    + inversion H as [| |? ? s1 s2 H1 H2| | | |]; subst.
      change (String c (s1 +:+ s2)) with (String c s1 +:+ s2).
      constructor; auto.
  - inversion H; subst; [apply MAltL | apply MAltR]; auto.
  - inversion H as [| |? ? s1 s2 H1 H2| | | |]; subst.
    change (String c (s1 +:+ s2)) with (String c s1 +:+ s2).
    constructor; auto.
Qed.

Lemma deriv_complete c r w :
  Matches r w -> forall s, w = String c s -> Matches (deriv c r) s.
Proof.
  induction 1 as [|p c0 Hp|r1 r2 s1 s2 H1 IH1 H2 IH2|r1 r2 s0 H1 IH1
                 |r1 r2 s0 H1 IH1| |r0 c0 s1 s2 H1 IH1 H2 IH2];
    intros s Hw; simpl.
  - discriminate.
  - injection Hw as -> <-. rewrite Hp. constructor.
  - destruct s1 as [|c1 s1'].
    + rewrite append_nil_l in Hw. apply nullable_Matches in H1. rewrite H1.
      apply MAltR; auto.
    + rewrite append_cons in Hw. injection Hw as -> <-.
      destruct (nullable r1); [apply MAltL|]; constructor; auto.
  - apply MAltL; auto.
  - apply MAltR; auto.
  - discriminate.
  - rewrite append_cons in Hw. injection Hw as -> <-. constructor; auto.
Qed.

Theorem test_Matches s : forall r, test r s = true <-> Matches r s.
Proof.
  induction s as [|c s IH]; intros r; simpl.
  - apply nullable_Matches.
  - rewrite IH. split; [apply deriv_sound|].
    intros H. eapply deriv_complete; eauto.
Qed.

End RegexFacts.

(** [regex.test(s)] decides the language of the pattern. *)
Lemma Regex_test_iff (r : Regex.regex) (s : string) :
  Regex.test r s = true <-> Regex.Matches r s.
Proof. apply RegexFacts.test_Matches. Qed.

Module RegexExamples.
Import Regex.

Example email_plain : test email_re "user@example.org" = true.
Proof. vm_compute. reflexivity. Qed.
Example email_dotted : test email_re "first.last@mail.example.co" = true.
Proof. vm_compute. reflexivity. Qed.
Example email_ip : test email_re "a@[192.168.0.1]" = true.
Proof. vm_compute. reflexivity. Qed.
Example email_quoted :
  test email_re (String dquote ("a b" +:+ String dquote "@example.org")) = true.
Proof. vm_compute. reflexivity. Qed.
Example email_no_at : test email_re "noreply" = false.
Proof. vm_compute. reflexivity. Qed.
Example email_short_tld : test email_re "user@example.c" = false.
Proof. vm_compute. reflexivity. Qed.
Example email_two_dots : test email_re "a..b@example.org" = false.
Proof. vm_compute. reflexivity. Qed.
Example email_space : test email_re "a b@example.org" = false.
Proof. vm_compute. reflexivity. Qed.

End RegexExamples.


(* ===================================================================== *)
(** ** Properties of [resolvePattern] *)
(* ===================================================================== *)

Module PatternProps.
Import Pattern.

(** [emailAddress.split('@')[0]] is the local part. *)
Lemma split_parts_fst (email : string) :
  fst (Js.split_parts "@" email) = local_part email.
Proof.
  induction email as [|c rest IH]; simpl; [reflexivity|].
  destruct (Js.split_parts "@" rest) as [h t]. simpl in IH.
  destruct (Ascii.eqb c "@"); simpl; congruence.
Qed.

Lemma split_head (email : string) :
  Js.split "@" email !! 0%nat = Some (local_part email).
Proof.
  unfold Js.split. rewrite <- split_parts_fst.
  destruct (Js.split_parts "@" email); reflexivity.
Qed.

Lemma indexOf_from_bounds x arr : forall i, 0 <= i ->
  Js.indexOf_from i x arr = -1 \/ i <= Js.indexOf_from i x arr.
Proof.
  induction arr as [|y arr IH]; simpl; intros i Hi; [now left|].
  destruct (String.eqb y x); [right; lia|].
  destruct (IH (i + 1)) as [H|H]; [lia|now left|right; lia].
Qed.

(** [indexOf] answers -1 exactly for a value that is not in the array. *)
Lemma indexOf_from_absent x arr : forall i, 0 <= i ->
  Js.indexOf_from i x arr = -1 <-> ~ In x arr.
Proof.
  induction arr as [|y arr IH]; simpl; intros i Hi.
  - split; [intros _ []|reflexivity].
  - destruct (String.eqb_spec y x) as [->|Hne].
    + split; [lia|]. intros H. exfalso. apply H. now left.
    + rewrite IH by lia. split.
      * intros H [Heq|Hin]; auto.
      * intros H Hin. apply H. now right.
Qed.

Lemma indexOf_absent x arr : Js.indexOf arr (Some x) = -1 <-> ~ In x arr.
Proof. apply indexOf_from_absent. lia. Qed.

(** The result of [resolvePattern] as a boolean formula. *)
Lemma resolvePattern_unfold email deny :
  resolvePattern email deny =
  Regex.test Regex.email_re email
  || (Js.indexOf (default [] deny) (Some (local_part email)) =? -1).
Proof. unfold resolvePattern. now rewrite split_head. Qed.

(** C6. [resolvePattern(email, denyList)] is true exactly when the address
    matches the address pattern or its local part (the substring before the
    at sign) is absent from the deny-list, an undefined deny-list counting
    as the empty one. In particular an address that fails the pattern is
    reported valid whenever its local part is not denied, and equal inputs
    give equal outputs. *)
Theorem resolvePattern_spec (email : string) (deny : option (list string)) :
  (resolvePattern email deny = true <->
     Regex.Matches Regex.email_re email \/ ~ In (local_part email) (default [] deny))
  /\ (~ Regex.Matches Regex.email_re email ->
      ~ In (local_part email) (default [] deny) ->
      resolvePattern email deny = true)
  /\ (forall email' deny',
        email' = email -> deny' = deny ->
        resolvePattern email' deny' = resolvePattern email deny).
Proof.
  assert (Hiff : resolvePattern email deny = true <->
     Regex.Matches Regex.email_re email \/ ~ In (local_part email) (default [] deny)).
  { rewrite resolvePattern_unfold, orb_true_iff, Regex_test_iff, Z.eqb_eq.
    now rewrite indexOf_absent. }
  split; [exact Hiff|split].
  - intros _ Habsent. apply Hiff. now right.
  - intros email' deny' -> ->. reflexivity.
Qed.

(** An address that fails the pattern and is not denied is reported valid;
    denied, it is not. *)
Lemma resolvePattern_spec_witness :
  resolvePattern "not an address" (Some ["noreply"]%string) = true
  /\ resolvePattern "noreply" (Some ["noreply"]%string) = false
  /\ resolvePattern "noreply@example.com" (Some ["noreply"]%string) = true.
Proof.
  split; [|split; vm_compute; reflexivity].
  apply (proj1 (proj2 (resolvePattern_spec "not an address"
                         (Some ["noreply"]%string)))).
  - rewrite <- Regex_test_iff. vm_compute. discriminate.
  - simpl. intros [H|[]]. discriminate.
Defined.

(** C7. With an empty deny-list, given or by default, [resolvePattern] is
    true for every string, whether or not it matches the pattern or holds
    an at sign. *)
Theorem resolvePattern_empty_deny_list (email : string) :
  resolvePattern email (Some []) = true
  /\ resolvePattern email None = true
  /\ _resolvePattern email None = true.
Proof.
  unfold _resolvePattern. rewrite !resolvePattern_unfold. simpl.
  rewrite !orb_true_r. auto.
Qed.

Example resolvePattern_no_at : resolvePattern "no at sign" None = true.
Proof. vm_compute. reflexivity. Qed.
Example resolvePattern_junk : resolvePattern "<>@@" (Some []) = true.
Proof. vm_compute. reflexivity. Qed.

End PatternProps.


(* ===================================================================== *)
(** ** Properties of [resolveMx] *)
(* ===================================================================== *)

Module MxProps.
Import Mx.

Section SortFacts.
Context {A : Type} (cmp : A -> A -> Z).
(** The comparator is a total preorder, as [a.priority - b.priority] is. *)
Hypothesis cmp_total : forall a b, cmp a b <= 0 \/ cmp b a <= 0.
Hypothesis cmp_trans : forall a b c, cmp a b <= 0 -> cmp b c <= 0 -> cmp a c <= 0.

Lemma sort_insert_perm x l : Permutation (x :: l) (Js.sort_insert cmp x l).
Proof using Type.
  induction l as [|y l IH]; simpl; [reflexivity|].
  destruct (cmp x y <=? 0); [reflexivity|].
  rewrite perm_swap. now constructor.
Qed.

Lemma sort_perm l : Permutation l (Js.sort cmp l).
Proof using Type.
  induction l as [|x l IH]; simpl; [constructor|].
  rewrite <- sort_insert_perm. now constructor.
Qed.

Lemma sort_insert_sorted x l :
  StronglySorted (fun a b => cmp a b <= 0) l ->
  StronglySorted (fun a b => cmp a b <= 0) (Js.sort_insert cmp x l).
Proof using cmp_total cmp_trans.
  induction 1 as [|y l Hs IH Hall]; simpl.
  - repeat constructor.
  - destruct (Z.leb_spec (cmp x y) 0) as [Hxy|Hxy].
    + constructor; [now constructor|].
      constructor; [exact Hxy|].
      eapply Forall_impl; [exact Hall|]. intros z Hz. eapply cmp_trans; eauto.
    + constructor; [exact IH|].
      assert (Hyx : cmp y x <= 0) by (destruct (cmp_total x y); [lia|assumption]).
      eapply Permutation_Forall; [apply sort_insert_perm|].
      constructor; assumption.
Qed.

Lemma sort_sorted l : StronglySorted (fun a b => cmp a b <= 0) (Js.sort cmp l).
Proof using cmp_total cmp_trans.
  induction l as [|x l IH]; simpl; [constructor|].
  now apply sort_insert_sorted.
Qed.
End SortFacts.

Lemma sort_by_priority_sorted (recs : list MxRecord) :
  StronglySorted priority_le (Js.sort by_priority recs).
Proof.
  assert (H : StronglySorted (fun a b => by_priority a b <= 0)
                             (Js.sort by_priority recs))
    by (apply (sort_sorted by_priority); unfold by_priority; intros; lia).
  induction H as [|a l Hs IH Hall]; constructor; [exact IH|].
  eapply Forall_impl; [exact Hall|].
  unfold by_priority, priority_le. intros b Hb. lia.
Qed.

(** Records of equal priority keep the order DNS gave them. *)
Example sort_by_priority_stable :
  Js.sort by_priority
    [ {| priority := 20; exchange := "b" |};
      {| priority := 10; exchange := "x" |};
      {| priority := 20; exchange := "a" |};
      {| priority := 10; exchange := "y" |} ]
  = [ {| priority := 10; exchange := "x" |};
      {| priority := 10; exchange := "y" |};
      {| priority := 20; exchange := "b" |};
      {| priority := 20; exchange := "a" |} ].
Proof. reflexivity. Qed.

(** C9. [resolveMx(hostname)] never throws: it is never a rejection; when
    the DNS lookup fails, whatever the error, it yields the empty list; when
    the lookup succeeds it yields the records DNS gave, reordered by
    ascending priority. *)
Theorem resolveMx_never_throws
    (dns_resolveMx : option string -> Js.awaited (list MxRecord))
    (hostname : option string) :
  (forall err, resolveMx dns_resolveMx hostname <> Js.Rejected err)
  /\ (forall err, dns_resolveMx hostname = Js.Rejected err ->
                  resolveMx dns_resolveMx hostname = Js.Fulfilled [])
  /\ (forall recs, dns_resolveMx hostname = Js.Fulfilled recs ->
        exists sorted,
          resolveMx dns_resolveMx hostname = Js.Fulfilled sorted
          /\ Permutation recs sorted
          /\ StronglySorted priority_le sorted).
Proof.
  unfold resolveMx. split; [|split].
  - intros err. destruct (dns_resolveMx hostname); discriminate.
  - intros err ->. reflexivity.
  - intros recs ->. exists (Js.sort by_priority recs).
    split; [reflexivity|split].
    + apply sort_perm.
    + apply sort_by_priority_sorted.
Qed.

(** A lookup that fails and one that answers out of order. *)
Lemma resolveMx_never_throws_witness :
  resolveMx (fun _ => Js.Rejected (Js.MkError "ENOTFOUND")) (Some "nowhere.test"%string)
    = Js.Fulfilled []
  /\ exists sorted,
       resolveMx (fun _ => Js.Fulfilled
                    [ {| priority := 20; exchange := "mx2.example.org" |};
                      {| priority := 10; exchange := "mx1.example.org" |} ])
                 (Some "example.org"%string) = Js.Fulfilled sorted
       /\ Permutation
            [ {| priority := 20; exchange := "mx2.example.org" |};
              {| priority := 10; exchange := "mx1.example.org" |} ] sorted
       /\ StronglySorted priority_le sorted.
Proof.
  split.
  - apply (proj1 (proj2 (resolveMx_never_throws
                           (fun _ => Js.Rejected (Js.MkError "ENOTFOUND"))
                           (Some "nowhere.test"%string)))
             (Js.MkError "ENOTFOUND")).
    reflexivity.
  - apply (proj2 (proj2 (resolveMx_never_throws
                           (fun _ => Js.Fulfilled
                              [ {| priority := 20; exchange := "mx2.example.org" |};
                                {| priority := 10; exchange := "mx1.example.org" |} ])
                           (Some "example.org"%string)))).
    reflexivity.
Defined.

End MxProps.


(* ===================================================================== *)
(** ** Properties of [resolveSmtpMailbox] *)
(* ===================================================================== *)

Module SmtpProps.
Import Smtp.


Section Session.
Variables (emailAddress mailFrom host : string).

Local Abbreviation commands := (Smtp.commands emailAddress mailFrom host).
Local Abbreviation stepMax := (Smtp.stepMax emailAddress mailFrom host).
Local Abbreviation line := (Smtp.line emailAddress mailFrom host).
Local Abbreviation on_next := (Smtp.on_next emailAddress mailFrom host).
Local Abbreviation on_data := (Smtp.on_data emailAddress mailFrom host).
Local Abbreviation emit := (Smtp.emit emailAddress mailFrom host).
Local Abbreviation deliver := (Smtp.deliver emailAddress mailFrom host).
Local Abbreviation session_inv := (Smtp.session_inv emailAddress mailFrom host).

Lemma stepMax_eq : stepMax = 2%nat.
Proof using Type. reflexivity. Qed.

(** [next] below [stepMax]: one write, one step. *)
Lemma on_next_write s :
  (step s < stepMax)%nat ->
  on_next s = incr_step (smtp_write (line (step s)) s).
Proof using Type.
  intros H. unfold Smtp.on_next. apply Nat.ltb_lt in H. now rewrite H.
Qed.

(** [next] at [stepMax]: the connection is closed and the promise resolved;
    nothing is written. *)
Lemma on_next_end s :
  ~ (step s < stepMax)%nat ->
  on_next s = smtp_end (fun s' => resolve (smtpMessages s') s') s.
Proof using Type.
  intros H. unfold Smtp.on_next. apply Nat.ltb_nlt in H. now rewrite H.
Qed.

Lemma resolve_frame v s :
  step (resolve v s) = step s /\ writes (resolve v s) = writes s
  /\ smtpMessages (resolve v s) = smtpMessages s
  /\ ended (resolve v s) = ended s.
Proof using Type. unfold resolve. destruct (promise s); simpl; auto. Qed.

Lemma reject_frame e s :
  step (reject e s) = step s /\ writes (reject e s) = writes s
  /\ smtpMessages (reject e s) = smtpMessages s
  /\ ended (reject e s) = ended s.
Proof using Type. unfold reject. destruct (promise s); simpl; auto. Qed.

Lemma reject_fulfilled e s v :
  promise (reject e s) = Js.Fulfilled v -> promise s = Js.Fulfilled v.
Proof using Type.
  unfold reject. destruct (promise s) eqn:E; simpl; congruence.
Qed.






(** *** What a session can have written *)

Lemma connected_inv timeout : session_inv (Smtp.connected timeout host).
Proof using Type.
  unfold Smtp.session_inv; simpl. repeat split; [lia|discriminate].
Qed.

Lemma on_next_inv s : session_inv s -> session_inv (on_next s).
Proof using Type.
  intros (Hle & Hw & Hp).
  destruct (Nat.lt_ge_cases (step s) stepMax) as [Hlt|Hge].
  - rewrite (on_next_write _ Hlt). rewrite stepMax_eq in Hlt.
    unfold Smtp.session_inv; simpl. split; [lia|]. split.
    + rewrite Hw.
      destruct (step s) as [|[|n]]; [reflexivity|reflexivity|lia].
    + intros v Hv. specialize (Hp v Hv). lia.
  - rewrite on_next_end by lia. rewrite stepMax_eq in Hge.
    unfold smtp_end.
    match goal with |- context [resolve ?v ?t] =>
      destruct (resolve_frame v t) as (H1 & H2 & _) end.
    unfold Smtp.session_inv. rewrite H1, H2. simpl.
    split; [lia|]. split; [exact Hw|]. intros; lia.
Qed.

Lemma emit_inv ev s : session_inv s -> session_inv (emit ev s).
Proof using Type.
  intros Hinv. destruct ev; simpl; try exact Hinv.
  - now apply on_next_inv.
  - destruct Hinv as (Hle & Hw & Hp). unfold on_error, smtp_end.
    match goal with |- context [reject ?e ?t] =>
      destruct (reject_frame e t) as (H1 & H2 & _);
      pose proof (reject_fulfilled e t) as H3
    end.
    unfold Smtp.session_inv. rewrite H1, H2. simpl in *.
    split; [lia|]. split; [exact Hw|]. intros v Hv. eauto.
  - unfold Smtp.on_data.
    match goal with |- context [push ?m s] =>
      assert (Hpush : session_inv (push m s)) by exact Hinv;
      generalize dependent (push m s) end.
    intros s' Hs'. destruct (Js.gt _ 200); [now apply on_next_inv|exact Hs'].
Qed.

Lemma deliver_inv evs : forall s, session_inv s -> session_inv (deliver evs s).
Proof using Type.
  induction evs as [|ev evs IH]; intros s Hs; [exact Hs|].
  apply (IH _ (emit_inv ev s Hs)).
Qed.
End Session.

(** Whatever the network does, the only lines ever written are the first
    two of the script, in order. *)
Lemma session_writes emailAddress mxRecords timeout mailFrom evs :
  exists host n, (n <= 2)%nat /\
    writes (session emailAddress mxRecords timeout mailFrom evs)
    = take n [Smtp.line emailAddress mailFrom host 0;
              Smtp.line emailAddress mailFrom host 1].
Proof.
  unfold session. destruct (mxRecords !! 0%nat) as [mx|].
  - destruct (deliver_inv emailAddress mailFrom (Mx.exchange mx) evs _
                (connected_inv emailAddress mailFrom (Mx.exchange mx) timeout))
      as (Hle & Hw & _).
    eauto.
  - exists EmptyString, 0%nat. split; [lia|reflexivity].
Qed.

(** The line of the third command is never written. *)
Lemma rcpt_to_never_written emailAddress mxRecords timeout mailFrom evs :
  ~ In (("RCPT TO: <" +:+ emailAddress +:+ ">") +:+ Js.CRLF)
       (writes (session emailAddress mxRecords timeout mailFrom evs)).
Proof.
  destruct (session_writes emailAddress mxRecords timeout mailFrom evs)
    as (host & n & Hn & ->).
  intros Hin.
  assert (Hin' : In (("RCPT TO: <" +:+ emailAddress +:+ ">") +:+ Js.CRLF)
                    [Smtp.line emailAddress mailFrom host 0;
                     Smtp.line emailAddress mailFrom host 1]).
  { destruct n as [|[|[|n]]]; [destruct Hin| |exact Hin|lia].
    destruct Hin as [H|[]]. left; exact H. }
  destruct Hin' as [H|[H|[]]]; cbv in H; discriminate.
Qed.

(** A session that resolved wrote the HELO and MAIL FROM lines and nothing
    else. *)
Lemma resolved_session_writes emailAddress mxRecords timeout mailFrom evs msgs :
  resolveSmtpMailbox emailAddress mxRecords timeout mailFrom evs
    = Js.Fulfilled msgs ->
  exists host,
    writes (session emailAddress mxRecords timeout mailFrom evs)
    = [("HELO " +:+ host) +:+ Js.CRLF;
       ("MAIL FROM: <" +:+ mailFrom +:+ ">") +:+ Js.CRLF].
Proof.
  unfold resolveSmtpMailbox, session. destruct (mxRecords !! 0%nat) as [mx|].
  - intros Hp.
    destruct (deliver_inv emailAddress mailFrom (Mx.exchange mx) evs _
                (connected_inv emailAddress mailFrom (Mx.exchange mx) timeout))
      as (Hle & Hw & Hstep).
    exists (Mx.exchange mx). rewrite Hw, (Hstep _ Hp). reflexivity.
  - discriminate.
Qed.

(** A listener is registered for [next], [error] and [data] only: the
    timeout of the socket, like its other events, changes nothing. *)
Lemma emit_timeout emailAddress mailFrom host s :
  Smtp.emit emailAddress mailFrom host EvTimeout s = s.
Proof. reflexivity. Qed.

(** *** A session in which every reply is positive *)

(** C1, on the code. The server greets with 220 and answers 250 to HELO and
    to MAIL FROM. The session resolves with three entries, the third one
    labelled with the RCPT TO command and carrying the status of the answer
    to MAIL FROM; only the HELO and MAIL FROM lines were written, the
    RCPT TO line never was. *)
Theorem positive_session_skips_rcpt_to :
  let s := session "user@example.org" example_mx 2000 "email@example.org"
                   positive_replies in
  promise s = Js.Fulfilled
    [ {| command := Some "HELO mx.example.org"%string;
         message := "220 mx.example.org ESMTP ready"; status := Js.Num 220 |};
      {| command := Some "MAIL FROM: <email@example.org>"%string;
         message := "250 mx.example.org at your service"; status := Js.Num 250 |};
      {| command := Some "RCPT TO: <user@example.org>"%string;
         message := "250 2.1.0 OK"; status := Js.Num 250 |} ]
  /\ writes s = [ "HELO mx.example.org" +:+ Js.CRLF;
                  "MAIL FROM: <email@example.org>" +:+ Js.CRLF ]
  /\ ~ In ("RCPT TO: <user@example.org>" +:+ Js.CRLF) (writes s)
  /\ ended s = true.
Proof.
  cbv zeta. split; [vm_compute; reflexivity|].
  split; [vm_compute; reflexivity|].
  split; [|vm_compute; reflexivity].
  apply (rcpt_to_never_written "user@example.org").
Qed.

(** C3, on the code. The server greets, the HELO line is written, then the
    idle timeout of the socket fires, once or many times: the promise is
    still pending and [end] was never called. *)
Theorem timeout_leaves_session_pending (n : nat) :
  let s := session "user@example.org" example_mx 2000 "email@example.org"
                   (EvData "220 mx.example.org ESMTP ready"
                    :: repeat EvTimeout (S n)) in
  promise s = Js.Pending /\ ended s = false
  /\ idle_timeout s = 2000
  /\ writes s = [ "HELO mx.example.org" +:+ Js.CRLF ].
Proof.
  cbv zeta. unfold session. simpl lookup. cbv iota beta.
  unfold Smtp.deliver.
  assert (Hidle : forall k s, fold_left
            (fun s ev => Smtp.emit "user@example.org" "email@example.org"
                           (Mx.exchange {| Mx.priority := 10;
                                           Mx.exchange := "mx.example.org" |}) ev s)
            (repeat EvTimeout k) s = s).
  { induction k as [|k IH]; intros s; simpl; [reflexivity|apply IH]. }
  cbn [fold_left]. rewrite Hidle. vm_compute. auto.
Qed.

End SmtpProps.


(* ===================================================================== *)
(** ** Properties of [check()] *)
(* ===================================================================== *)

Module MailConfirmProps.
Import MailConfirm.

Arguments Pattern._resolvePattern : simpl never.

Lemma store_request_fields a st :
  emailAddress (store a st) = emailAddress st
  /\ timeout (store a st) = timeout st
  /\ invalidMailboxKeywords (store a st) = invalidMailboxKeywords st
  /\ mailFrom (store a st) = mailFrom st
  /\ mailbox (store a st) = mailbox st
  /\ hostname (store a st) = hostname st.
Proof. destruct a; simpl; auto 10. Qed.

(** An array of length 3 has an element at index 2. *)
Lemma third_entry {A} (l : list A) : length l = 3%nat -> exists m, l !! 2%nat = Some m.
Proof. destruct l as [|a [|b [|c [|d l]]]]; simpl; try discriminate; eauto. Qed.

Lemma strict_eq_250 (status : Js.jsnum) :
  Js.strict_eq status 250 = true <-> status = Js.Num 250.
Proof.
  destruct status as [|z]; simpl.
  - split; discriminate.
  - rewrite Z.eqb_eq. split; [now intros ->|now intros [= ->]].
Qed.

(** Unfolds a run of [check] along one path. *)
Ltac run_path :=
  unfold run_check, check, mx_check, mailbox_check, try_catch, bind, get_state,
    assign, call, await, ret, throw;
  simpl.

Section Methods.
Variable _resolveMx : option string -> Js.awaited (list Mx.MxRecord).
Variable _resolveSmtpMailbox :
  string -> list Mx.MxRecord -> Z -> string -> Js.awaited (list Smtp.SmtpMessage).

(** C4. When the probe resolves with a transcript: three entries with a
    third status of 250 give [isValidMailbox = true] and the result
    [Mailbox is valid.]; three entries with another third status give
    [false] and [Mailbox is invalid.]; fewer than three entries give [false]
    and [Could not validate mailbox.]. In each case [check] returns the
    state of the instance. *)
Theorem check_mailbox_verdict (i : Instance) recs msgs :
  pattern_passes (this_state i) ->
  _resolveMx (hostname (this_state i)) = Js.Fulfilled recs ->
  recs <> [] ->
  _resolveSmtpMailbox (emailAddress (this_state i)) recs
                      (timeout (this_state i)) (mailFrom (this_state i))
    = Js.Fulfilled msgs ->
  exists st' i',
    check _resolveMx _resolveSmtpMailbox i = (Returned st', i')
    /\ this_state i' = st'
    /\ smtpMessages st' = msgs
    /\ (forall m, length msgs = 3%nat -> msgs !! 2%nat = Some m ->
                  Smtp.status m = Js.Num 250 ->
                  isValidMailbox st' = true /\ result st' = "Mailbox is valid.")
    /\ (forall m, length msgs = 3%nat -> msgs !! 2%nat = Some m ->
                  Smtp.status m <> Js.Num 250 ->
                  isValidMailbox st' = false /\ result st' = "Mailbox is invalid.")
    /\ ((length msgs < 3)%nat ->
        isValidMailbox st' = false /\ result st' = "Could not validate mailbox.").
Proof using Type.
  unfold pattern_passes. intros Hpat Hmx Hne Hprobe.
  run_path. rewrite Hpat. simpl. rewrite Hmx.
  destruct recs as [|r recs]; [congruence|]. simpl.
  rewrite Hprobe.
  destruct (Nat.eqb_spec (length msgs) 3) as [Hlen|Hlen].
  - destruct (third_entry msgs Hlen) as [m Hm]. rewrite Hm.
    destruct (Js.strict_eq (Smtp.status m) 250) eqn:Hst;
      simpl; do 2 eexists; (split; [reflexivity|]); simpl;
      (split; [reflexivity|]); (split; [reflexivity|]).
    + apply strict_eq_250 in Hst. split; [|split].
      * intros; split; reflexivity.
      * intros m' _ Hm' Hne'. congruence.
      * intros; lia.
    + assert (Smtp.status m <> Js.Num 250)
        by (intros H; apply strict_eq_250 in H; congruence).
      split; [|split].
      * intros m' _ Hm' Heq. congruence.
      * intros; split; reflexivity.
      * intros; lia.
  - simpl. do 2 eexists. split; [reflexivity|]. simpl.
    split; [reflexivity|]. split; [reflexivity|]. split; [|split].
    + intros; congruence.
    + intros; congruence.
    + intros; split; reflexivity.
Qed.

(** Every path of [check], in the order: mailbox valid, mailbox invalid,
    transcript incomplete, probe rejected, probe pending, no MX record,
    resolver rejected, resolver pending, pattern invalid. *)
Ltac check_paths :=
  run_path;
  destruct (Pattern._resolvePattern _ _) eqn:Hpat; simpl;
  [ destruct (_resolveMx _) as [[|r recs]|err|] eqn:Hmx; simpl;
    [ | destruct (_resolveSmtpMailbox _ _ _ _) as [msgs|err|] eqn:Hprobe; simpl;
        [ destruct (Nat.eqb_spec (length msgs) 3) as [Hlen|Hlen]; simpl;
          [ destruct (third_entry msgs Hlen) as [m Hm]; rewrite Hm;
            destruct (Js.strict_eq (Smtp.status m) 250) eqn:Hst; simpl | ]
        | | ]
    | | ]
  | ].

(** C5. When the pattern gate passes and MX resolution yields the empty
    list, [check] returns with the result [Email server is invalid or not
    available.] and [isValidMx = false]; the probe is never called and
    [smtpMessages] is still empty. *)
Theorem check_empty_mx (cfg : Config) :
  pattern_passes (constructor cfg) ->
  _resolveMx (hostname (constructor cfg)) = Js.Fulfilled [] ->
  exists st' i',
    run_check _resolveMx _resolveSmtpMailbox cfg = (Returned st', i')
    /\ this_state i' = st'
    /\ result st' = "Email server is invalid or not available."
    /\ isValidMx st' = false
    /\ smtpMessages st' = []
    /\ mailbox_gate_reached (trace i') = false.
Proof using Type.
  unfold pattern_passes. intros Hpat Hmx.
  run_path. simpl in Hpat, Hmx. rewrite Hpat. simpl. rewrite Hmx. simpl.
  do 2 eexists. split; [reflexivity|]. simpl. auto 10.
Qed.

(** C8. [check] throws two errors only. A throwing resolver gives an error
    whose message is exactly [MX record check failed.] and a rejecting probe
    an error whose message is exactly [Mailbox check failed.], whatever the
    cause was, of which nothing is kept; [check] throws nothing else, and
    only then; an invalid pattern, an empty MX list and a resolved probe,
    whatever its verdict, make [check] return. *)
Theorem check_thrown_errors (i : Instance) :
  let st := this_state i in
  let outcome := fst (check _resolveMx _resolveSmtpMailbox i) in
  (forall cause, pattern_passes st ->
     _resolveMx (hostname st) = Js.Rejected cause ->
     outcome = Threw (Js.MkError "MX record check failed."))
  /\ (forall recs cause, pattern_passes st ->
       _resolveMx (hostname st) = Js.Fulfilled recs -> recs <> [] ->
       _resolveSmtpMailbox (emailAddress st) recs (timeout st) (mailFrom st)
         = Js.Rejected cause ->
       outcome = Threw (Js.MkError "Mailbox check failed."))
  /\ (forall e, outcome = Threw e ->
       (Js.err_message e = "MX record check failed."%string /\
        exists cause, _resolveMx (hostname st) = Js.Rejected cause)
       \/ (Js.err_message e = "Mailbox check failed."%string /\
           exists recs cause,
             _resolveMx (hostname st) = Js.Fulfilled recs /\
             _resolveSmtpMailbox (emailAddress st) recs (timeout st) (mailFrom st)
               = Js.Rejected cause))
  /\ (~ pattern_passes st -> exists st', outcome = Returned st')
  /\ (pattern_passes st -> _resolveMx (hostname st) = Js.Fulfilled [] ->
       exists st', outcome = Returned st')
  /\ (forall recs msgs, pattern_passes st ->
       _resolveMx (hostname st) = Js.Fulfilled recs -> recs <> [] ->
       _resolveSmtpMailbox (emailAddress st) recs (timeout st) (mailFrom st)
         = Js.Fulfilled msgs ->
       exists st', outcome = Returned st').
Proof using Type.
  cbv zeta. unfold pattern_passes.
  check_paths; unfold mx_check_failed, mailbox_check_failed;
    (split; [intros; congruence|]);
    (split; [intros; try reflexivity; congruence|]);
    (split; [intros e He; try discriminate; injection He as <-; simpl;
             eauto 8|]);
    (split; [intros; eauto; congruence|]);
    (split; [intros; eauto; congruence|]);
    intros; eauto; congruence.
Qed.

(** Whatever happens, [check] leaves the members set from the request alone. *)
Lemma check_preserves_request (i : Instance) :
  let st := this_state i in
  let st' := this_state (snd (check _resolveMx _resolveSmtpMailbox i)) in
  emailAddress st' = emailAddress st /\ timeout st' = timeout st
  /\ invalidMailboxKeywords st' = invalidMailboxKeywords st
  /\ mailFrom st' = mailFrom st /\ mailbox st' = mailbox st
  /\ hostname st' = hostname st.
Proof using Type.
  cbv zeta. check_paths; auto 10.
Qed.

(** C10. When [check] returns on an instance fresh from the constructor,
    it returns the state of the instance; the members set from the request
    are as the constructor left them; no member is assigned twice, and none
    of the assigned members is a request member; the flag and the list of a
    gate that was not reached are as the constructor left them, so that
    after a failed pattern gate [isValidMx] and [isValidMailbox] are false
    and [mxRecords] and [smtpMessages] are empty. *)
Theorem check_frame (cfg : Config) (st' : State) (i' : Instance) :
  run_check _resolveMx _resolveSmtpMailbox cfg = (Returned st', i') ->
  this_state i' = st'
  /\ (emailAddress st' = emailAddress (constructor cfg)
      /\ timeout st' = timeout (constructor cfg)
      /\ invalidMailboxKeywords st' = invalidMailboxKeywords (constructor cfg)
      /\ mailFrom st' = mailFrom (constructor cfg)
      /\ mailbox st' = mailbox (constructor cfg)
      /\ hostname st' = hostname (constructor cfg))
  /\ List.NoDup (assigned_fields (trace i'))
  /\ (forall f, In f (assigned_fields (trace i')) -> ~ In f request_fields)
  /\ (mx_gate_reached (trace i') = false ->
      isValidMx st' = false /\ mxRecords st' = [])
  /\ (mailbox_gate_reached (trace i') = false ->
      isValidMailbox st' = false /\ smtpMessages st' = [])
  /\ (isValidPattern st' = false ->
      isValidMx st' = false /\ isValidMailbox st' = false
      /\ mxRecords st' = [] /\ smtpMessages st' = []).
Proof using Type.
  unfold run_check. revert st' i'.
  check_paths; intros st' i' [= <- <-]; simpl.
  all: (split; [reflexivity|]).
  all: (split; [solve [auto 10]|]).
  all: (split; [solve [repeat (constructor; [simpl; intuition congruence|]);
                       constructor]|]).
  all: (split; [solve [intros f Hf; simpl in *; intuition congruence]|]).
  all: (split; [solve [intros; try discriminate; auto]|]).
  all: (split; [solve [intros; try discriminate; auto]|]).
  all: solve [intros; try discriminate; auto].
Qed.

End Methods.

(** *** The claims on concrete runs *)

(** The server answers every command positively: the mailbox is reported valid. *)
Lemma check_mailbox_verdict_witness :
  exists st' i',
    check (Mx._resolveMx dns_example) (probe_against Smtp.positive_replies)
          (fresh user_cfg) = (Returned st', i')
    /\ isValidMailbox st' = true /\ result st' = "Mailbox is valid.".
Proof.
  edestruct (check_mailbox_verdict
               (Mx._resolveMx dns_example) (probe_against Smtp.positive_replies)
               (fresh user_cfg))
    as (st' & i' & Hrun & _ & _ & Hvalid & _).
  - vm_compute. reflexivity.
  - reflexivity.
  - discriminate.
  - reflexivity.
  - exists st', i'. split; [exact Hrun|].
    eapply Hvalid; reflexivity.
Defined.

(** The end-to-end scenario of a domain without MX record. *)
Lemma check_empty_mx_witness :
  exists st' i',
    run_check (Mx._resolveMx dns_not_found) (probe_against []) no_mx_cfg
      = (Returned st', i')
    /\ this_state i' = st'
    /\ result st' = "Email server is invalid or not available."
    /\ isValidMx st' = false
    /\ smtpMessages st' = []
    /\ mailbox_gate_reached (trace i') = false.
Proof.
  apply (check_empty_mx (Mx._resolveMx dns_not_found) (probe_against []) no_mx_cfg).
  - vm_compute. reflexivity.
  - reflexivity.
Defined.

(** A resolver stub that throws, and a connection that is refused. *)
Lemma check_thrown_errors_witness :
  fst (check throwing_resolver (probe_against []) (fresh user_cfg))
    = Threw (Js.MkError "MX record check failed.")
  /\ fst (check (Mx._resolveMx dns_example)
                (probe_against [Smtp.EvError (Js.MkError "ECONNREFUSED")])
                (fresh user_cfg))
     = Threw (Js.MkError "Mailbox check failed.").
Proof.
  split.
  - apply (proj1 (check_thrown_errors throwing_resolver (probe_against [])
                    (fresh user_cfg)) (Js.MkError "stub failure")).
    + vm_compute. reflexivity.
    + reflexivity.
  - apply (proj1 (proj2 (check_thrown_errors (Mx._resolveMx dns_example)
                    (probe_against [Smtp.EvError (Js.MkError "ECONNREFUSED")])
                    (fresh user_cfg)))
             (Js.sort Mx.by_priority
                 [ {| Mx.priority := 20; Mx.exchange := "mx2.example.org" |};
                   {| Mx.priority := 10; Mx.exchange := "mx.example.org" |} ])
             (Js.MkError "ECONNREFUSED")).
    + vm_compute. reflexivity.
    + reflexivity.
    + discriminate.
    + vm_compute. reflexivity.
Defined.

(** The run of the domain without MX record returns, and the frame holds of it. *)
Lemma check_frame_witness :
  let r := run_check (Mx._resolveMx dns_not_found) (probe_against []) no_mx_cfg in
  r = (Returned (this_state (snd r)), snd r)
  /\ List.NoDup (assigned_fields (trace (snd r)))
  /\ isValidMailbox (this_state (snd r)) = false
  /\ emailAddress (this_state (snd r)) = "user@bad-domain-with-no-mx.test".
Proof.
  cbv zeta.
  assert (Hrun : run_check (Mx._resolveMx dns_not_found) (probe_against []) no_mx_cfg
                 = (Returned (this_state (snd (run_check (Mx._resolveMx dns_not_found)
                                                 (probe_against []) no_mx_cfg))),
                    snd (run_check (Mx._resolveMx dns_not_found)
                           (probe_against []) no_mx_cfg)))
    by (vm_compute; reflexivity).
  destruct (check_frame _ _ _ _ _ Hrun)
    as (_ & (Hemail & _) & Hnodup & _ & _ & Hmb & _).
  split; [exact Hrun|]. split; [exact Hnodup|]. split.
  - apply Hmb. vm_compute. reflexivity.
  - rewrite Hemail. reflexivity.
Defined.

End MailConfirmProps.


(* ===================================================================== *)
(** ** Sessions of [resolveSmtpMailbox]: transcript and settling *)
(* ===================================================================== *)

Module SessionProps.
Import Smtp Transcript.

Lemma count_positive_app l1 l2 :
  count_positive (l1 ++ l2) = (count_positive l1 + count_positive l2)%nat.
Proof.
  induction l1 as [|m l1 IH]; simpl; [reflexivity|]. rewrite IH. lia.
Qed.

Lemma count_positive_le msgs : (count_positive msgs <= length msgs)%nat.
Proof.
  induction msgs as [|m msgs IH]; simpl; [lia|]. destruct (positive m); lia.
Qed.

Lemma deliver_app e m h evs1 evs2 s :
  Smtp.deliver e m h (evs1 ++ evs2) s
  = Smtp.deliver e m h evs2 (Smtp.deliver e m h evs1 s).
Proof. unfold Smtp.deliver. apply fold_left_app. Qed.

Section Session.
Variables (emailAddress mailFrom host : string).

Local Abbreviation commands := (Smtp.commands emailAddress mailFrom host).
Local Abbreviation stepMax := (Smtp.stepMax emailAddress mailFrom host).
Local Abbreviation on_next := (Smtp.on_next emailAddress mailFrom host).
Local Abbreviation on_data := (Smtp.on_data emailAddress mailFrom host).
Local Abbreviation emit := (Smtp.emit emailAddress mailFrom host).
Local Abbreviation deliver := (Smtp.deliver emailAddress mailFrom host).

(** [next] touches neither the transcript nor the socket parameters. *)
Lemma on_next_frame s :
  smtpMessages (on_next s) = smtpMessages s
  /\ remote (on_next s) = remote s
  /\ idle_timeout (on_next s) = idle_timeout s.
Proof using Type.
  unfold Smtp.on_next, smtp_end, resolve.
  destruct (step s <? stepMax)%nat; simpl; [auto|].
  destruct (promise s); simpl; auto.
Qed.

(** What [next] does to the promise. *)
Lemma on_next_promise s :
  promise (on_next s) =
    if (step s <? stepMax)%nat then promise s
    else match promise s with
         | Js.Pending => Js.Fulfilled (smtpMessages s)
         | settled => settled
         end.
Proof using Type.
  unfold Smtp.on_next, smtp_end, resolve.
  destruct (step s <? stepMax)%nat; simpl; [reflexivity|].
  destruct (promise s); reflexivity.
Qed.

Lemma on_next_step s :
  step (on_next s) = if (step s <? stepMax)%nat then S (step s) else step s.
Proof using Type.
  unfold Smtp.on_next, smtp_end, resolve.
  destruct (step s <? stepMax)%nat; simpl; [reflexivity|].
  destruct (promise s); reflexivity.
Qed.

Lemma emit_smtpMessages ev s :
  smtpMessages (emit ev s) =
    smtpMessages s ++
    match ev with
    | EvData data =>
        [ {| command := commands !! step s; message := data;
             status := Js.parseInt (Js.substring 0 3 data) |} ]
    | _ => []
    end.
Proof using Type.
  destruct ev; simpl; rewrite ?app_nil_r; try reflexivity.
  - apply on_next_frame.
  - unfold on_error, smtp_end, reject. destruct (promise s); reflexivity.
  - unfold Smtp.on_data. destruct (Js.gt _ 200); [|reflexivity].
    now destruct (on_next_frame
      (push {| command := commands !! step s; message := data;
               status := Js.parseInt (Js.substring 0 3 data) |} s)) as (-> & _).
Qed.

(** The transcript grows by one entry per reply, in order, and by nothing else. *)
Lemma deliver_replies evs : forall s,
  map reply_of (smtpMessages (deliver evs s))
  = map reply_of (smtpMessages s) ++ map parse_reply (replies evs).
Proof using Type.
  induction evs as [|ev evs IH]; intros s; simpl.
  - now rewrite app_nil_r.
  - change (Smtp.deliver emailAddress mailFrom host (ev :: evs) s)
      with (deliver evs (emit ev s)).
    rewrite IH, emit_smtpMessages, map_app, <- app_assoc.
    destruct ev; reflexivity.
Qed.

(** A settled promise is not touched by any event. *)
Lemma emit_settled ev s :
  promise s <> Js.Pending -> promise (emit ev s) = promise s.
Proof using Type.
  intros Hs. destruct ev; simpl; try reflexivity.
  - rewrite on_next_promise. destruct (step s <? stepMax)%nat; [reflexivity|].
    destruct (promise s); congruence.
  - unfold on_error, smtp_end, reject. simpl.
    destruct (promise s); simpl; congruence.
  - unfold Smtp.on_data. destruct (Js.gt _ 200); [|reflexivity].
    rewrite on_next_promise. simpl.
    destruct (step s <? stepMax)%nat; [reflexivity|].
    destruct (promise s); congruence.
Qed.

Lemma deliver_settled evs : forall s,
  promise s <> Js.Pending -> promise (deliver evs s) = promise s.
Proof using Type.
  induction evs as [|ev evs IH]; intros s Hs; [reflexivity|].
  change (Smtp.deliver emailAddress mailFrom host (ev :: evs) s)
    with (deliver evs (emit ev s)).
  rewrite IH; rewrite emit_settled; auto.
Qed.

Local Abbreviation counting := (Transcript.counting (commands !! 2%nat)).

Lemma emit_counting ev s :
  from_network ev = true -> counting s -> counting (emit ev s).
Proof using Type.
  intros Hev [Hle Hp]. destruct ev; try discriminate; try (split; assumption).
  - (* error *)
    simpl. unfold on_error, smtp_end, reject. simpl.
    destruct (promise s) eqn:E; split; simpl; try rewrite E; auto.
  - (* data *)
    simpl. unfold Smtp.on_data.
    set (entry := {| command := commands !! step s; message := data;
                     status := Js.parseInt (Js.substring 0 3 data) |}).
    destruct (Js.gt (Js.parseInt (Js.substring 0 3 data)) 200) eqn:Hgt.
    + split.
      * rewrite on_next_step. simpl.
        destruct (Nat.ltb_spec (step s) stepMax) as [H|H];
          [change stepMax with 2%nat in H; lia|exact Hle].
      * rewrite on_next_promise. destruct (on_next_frame (push entry s)) as (-> & _).
        rewrite on_next_step. simpl.
        destruct (Nat.ltb_spec (step s) stepMax) as [H|H];
          change stepMax with 2%nat in H.
        -- destruct (promise s); auto.
           rewrite count_positive_app. simpl. unfold positive. simpl.
           rewrite Hgt. lia.
        -- assert (Hs : step s = 2%nat) by lia.
           destruct (promise s); auto.
           split.
           ++ rewrite count_positive_app. simpl. unfold positive. simpl.
              rewrite Hgt. lia.
           ++ exists (smtpMessages s), entry. unfold positive. simpl.
              rewrite Hs. auto.
    + split; [exact Hle|]. simpl. destruct (promise s); auto.
      rewrite count_positive_app. simpl. unfold positive. simpl.
      rewrite Hgt. lia.
Qed.

Lemma deliver_counting evs : forall s,
  forallb from_network evs = true -> counting s -> counting (deliver evs s).
Proof using Type.
  induction evs as [|ev evs IH]; intros s Hevs Hs; [exact Hs|].
  simpl in Hevs. apply andb_true_iff in Hevs as [Hev Hevs].
  change (Smtp.deliver emailAddress mailFrom host (ev :: evs) s)
    with (deliver evs (emit ev s)).
  apply IH; [exact Hevs|]. now apply emit_counting.
Qed.

Lemma connected_counting timeout : counting (Smtp.connected timeout host).
Proof using Type. split; simpl; [lia|reflexivity]. Qed.

Lemma emit_closed_iff_settled ev s :
  closed_iff_settled s -> closed_iff_settled (emit ev s).
Proof using Type.
  unfold closed_iff_settled. intros H.
  assert (Hnext : forall t, (ended t = true <-> promise t <> Js.Pending) ->
            ended (on_next t) = true <-> promise (on_next t) <> Js.Pending).
  { intros t Ht. rewrite on_next_promise. unfold Smtp.on_next, smtp_end, resolve.
    destruct (step t <? stepMax)%nat; simpl; [exact Ht|].
    destruct (promise t); simpl; split; intros; congruence. }
  destruct ev; simpl; try exact H.
  - now apply Hnext.
  - unfold on_error, smtp_end, reject. simpl.
    destruct (promise s); simpl; split; intros; congruence.
  - unfold Smtp.on_data. destruct (Js.gt _ 200); [|exact H].
    apply Hnext. exact H.
Qed.

Lemma deliver_closed_iff_settled evs : forall s,
  closed_iff_settled s -> closed_iff_settled (deliver evs s).
Proof using Type.
  induction evs as [|ev evs IH]; intros s Hs; [exact Hs|].
  change (Smtp.deliver emailAddress mailFrom host (ev :: evs) s)
    with (deliver evs (emit ev s)).
  apply IH. now apply emit_closed_iff_settled.
Qed.

End Session.

(** All entries of a transcript of three with three positive entries are
    positive. *)
Lemma count_positive_full msgs :
  count_positive msgs = length msgs -> Forall (fun m => positive m = true) msgs.
Proof.
  induction msgs as [|m msgs IH]; simpl; intros H; [constructor|].
  pose proof (count_positive_le msgs).
  destruct (positive m) eqn:Hm; [|lia].
  constructor; [exact Hm|]. apply IH. lia.
Qed.

Section Probe.
Variables (emailAddress : string) (mxRecords : list Mx.MxRecord)
          (timeout : Z) (mailFrom : string).

Local Abbreviation session := (Smtp.session emailAddress mxRecords timeout mailFrom).
Local Abbreviation resolveSmtpMailbox :=
  (Smtp.resolveSmtpMailbox emailAddress mxRecords timeout mailFrom).

(** Under events of the network layer a resolved transcript has at least
    three entries. *)
Lemma resolved_at_least_three (evs : list event) (msgs : list SmtpMessage) :
  forallb from_network evs = true ->
  resolveSmtpMailbox evs = Js.Fulfilled msgs ->
  (3 <= length msgs)%nat.
Proof using Type.
  intros Hevs. unfold Smtp.resolveSmtpMailbox, Smtp.session.
  destruct (mxRecords !! 0%nat) as [mx|]; [|discriminate].
  intros Hp.
  destruct (deliver_counting emailAddress mailFrom (Mx.exchange mx) evs _ Hevs
              (connected_counting emailAddress mailFrom (Mx.exchange mx) timeout))
    as [_ Hshape].
  rewrite Hp in Hshape. destruct Hshape as [Hcount _].
  pose proof (count_positive_le msgs). lia.
Qed.

(** X6. The transcript is the list of the replies received: one entry per
    reply, in order of arrival, with the text of the reply and the status
    parsed from its first three characters. Nothing else adds an entry, and
    replies that arrive after the session was closed are recorded too. *)
Theorem transcript_is_replies (mx : Mx.MxRecord) (evs : list event) :
  mxRecords !! 0%nat = Some mx ->
  map reply_of (smtpMessages (session evs)) = map parse_reply (replies evs)
  /\ length (smtpMessages (session evs)) = length (replies evs).
Proof using Type.
  intros Hmx. unfold Smtp.session. rewrite Hmx.
  pose proof (deliver_replies emailAddress mailFrom (Mx.exchange mx) evs
                (Smtp.connected timeout (Mx.exchange mx))) as H.
  simpl in H. split; [exact H|].
  apply (f_equal length) in H. now rewrite !length_map in H.
Qed.

(** X7. Under events of the network layer, a transcript the promise resolves
    with holds exactly three entries with a status above 200; its last entry
    is one of them and is labelled with the RCPT TO command. So it has at
    least three entries, and when it has exactly three all are above 200. *)
Theorem resolved_transcript_shape (evs : list event) (msgs : list SmtpMessage) :
  forallb from_network evs = true ->
  resolveSmtpMailbox evs = Js.Fulfilled msgs ->
  count_positive msgs = 3%nat
  /\ (3 <= length msgs)%nat
  /\ (exists init last,
        msgs = init ++ [last] /\ positive last = true
        /\ command last = Some ("RCPT TO: <" +:+ emailAddress +:+ ">"))
  /\ (length msgs = 3%nat -> Forall (fun m => positive m = true) msgs).
Proof using Type.
  intros Hevs. unfold Smtp.resolveSmtpMailbox, Smtp.session.
  destruct (mxRecords !! 0%nat) as [mx|]; [|discriminate].
  intros Hp.
  destruct (deliver_counting emailAddress mailFrom (Mx.exchange mx) evs _ Hevs
              (connected_counting emailAddress mailFrom (Mx.exchange mx) timeout))
    as [_ Hshape].
  rewrite Hp in Hshape. destruct Hshape as [Hcount Hlast].
  pose proof (count_positive_le msgs) as Hle.
  split; [exact Hcount|]. split; [lia|]. split; [exact Hlast|].
  intros Hlen. apply count_positive_full. lia.
Qed.

(** X9. An [error] event on a session whose promise is pending closes the
    socket and rejects the promise with that very error; no later event
    changes that, and the transcript collected so far is not handed over. *)
Theorem error_rejects (mx : Mx.MxRecord) (evs later : list event) (err : Js.JsError) :
  mxRecords !! 0%nat = Some mx ->
  resolveSmtpMailbox evs = Js.Pending ->
  resolveSmtpMailbox (evs ++ EvError err :: later) = Js.Rejected err
  /\ ended (session (evs ++ EvError err :: later)) = true.
Proof using Type.
  unfold Smtp.resolveSmtpMailbox, Smtp.session. intros -> Hp.
  set (s := Smtp.deliver emailAddress mailFrom (Mx.exchange mx) evs
              (Smtp.connected timeout (Mx.exchange mx))) in *.
  assert (Hrej : promise (Smtp.emit emailAddress mailFrom (Mx.exchange mx)
                            (EvError err) s) = Js.Rejected err).
  { simpl. unfold on_error, smtp_end, reject. simpl. rewrite Hp. reflexivity. }
  assert (Hfinal : promise (Smtp.deliver emailAddress mailFrom (Mx.exchange mx)
                              (evs ++ EvError err :: later)
                              (Smtp.connected timeout (Mx.exchange mx)))
                   = Js.Rejected err).
  { rewrite deliver_app. fold s.
    change (Smtp.deliver emailAddress mailFrom (Mx.exchange mx)
              (EvError err :: later) s)
      with (Smtp.deliver emailAddress mailFrom (Mx.exchange mx) later
              (Smtp.emit emailAddress mailFrom (Mx.exchange mx) (EvError err) s)).
    rewrite deliver_settled; rewrite Hrej; [reflexivity|discriminate]. }
  split; [exact Hfinal|].
  apply (deliver_closed_iff_settled emailAddress mailFrom (Mx.exchange mx)).
  - unfold closed_iff_settled. simpl. split; [discriminate|congruence].
  - rewrite Hfinal. discriminate.
Qed.

End Probe.

End SessionProps.


(* ===================================================================== *)
(** ** Runs of [check()]: calls, frame, outcomes *)
(* ===================================================================== *)

Module RunProps.
Import MailConfirm Run.

Ltac unfold_run := MailConfirmProps.run_path.

Section Methods.
Variable _resolveMx : option string -> Js.awaited (list Mx.MxRecord).
Variable _resolveSmtpMailbox :
  string -> list Mx.MxRecord -> Z -> string -> Js.awaited (list Smtp.SmtpMessage).

Local Abbreviation check := (MailConfirm.check _resolveMx _resolveSmtpMailbox).
Local Abbreviation run_check := (MailConfirm.run_check _resolveMx _resolveSmtpMailbox).

(** The paths of a run, in the order: mailbox valid, mailbox invalid,
    transcript not of three entries, probe rejected, probe pending, no MX
    record, resolver rejected, resolver pending, pattern invalid. *)
Ltac all_paths :=
  unfold_run;
  destruct (Pattern._resolvePattern _ _) eqn:Hpat; simpl;
  [ destruct (_resolveMx _) as [[|r recs]|err|] eqn:Hmx; simpl;
    [ | destruct (_resolveSmtpMailbox _ _ _ _) as [msgs|err|] eqn:Hprobe; simpl;
        [ destruct (Nat.eqb_spec (length msgs) 3) as [Hlen|Hlen]; simpl;
          [ destruct (MailConfirmProps.third_entry msgs Hlen) as [m Hm];
            rewrite Hm;
            destruct (Js.strict_eq (Smtp.status m) 250) eqn:Hst; simpl | ]
        | | ]
    | | ]
  | ].

(** X12. A run calls the methods of the instance at most once each and in the
    order pattern, resolver, probe. The resolver gets the host name of the
    request; the probe is called only with the non-empty list the resolver
    yielded, and with the address, timeout and sender of the request. *)
Theorem check_calls (cfg : Config) :
  let st := constructor cfg in
  let pattern := Call_resolvePattern (emailAddress st) (invalidMailboxKeywords st) in
  let mx := Call_resolveMx (hostname st) in
  let made := calls (trace (snd (run_check cfg))) in
  made = [pattern]
  \/ made = [pattern; mx]
  \/ exists recs,
       _resolveMx (hostname st) = Js.Fulfilled recs /\ recs <> []
       /\ made = [pattern; mx;
                  Call_resolveSmtpMailbox (emailAddress st) recs (timeout st)
                                          (mailFrom st)].
Proof using Type.
  cbv zeta. unfold MailConfirm.run_check.
  all_paths; auto;
    right; right; exists (r :: recs); (split; [reflexivity|]);
    (split; [discriminate|reflexivity]).
Qed.

(** X13. An address that fails the pattern and whose local part is on the
    deny-list stops the run at the first gate: [check] returns with the
    result [Email pattern is invalid.], and neither the resolver nor the
    probe is called. *)
Theorem check_invalid_pattern (cfg : Config) :
  Regex.test Regex.email_re (cfg_emailAddress cfg) = false ->
  In (Pattern.local_part (cfg_emailAddress cfg))
     (default [] (cfg_invalidMailboxKeywords cfg)) ->
  exists st' i',
    run_check cfg = (Returned st', i')
    /\ this_state i' = st'
    /\ result st' = "Email pattern is invalid."
    /\ isValidPattern st' = false
    /\ calls (trace i')
       = [Call_resolvePattern (cfg_emailAddress cfg)
                              (default [] (cfg_invalidMailboxKeywords cfg))].
Proof using Type.
  intros Hre Hdeny.
  assert (Hpat : Pattern._resolvePattern (cfg_emailAddress cfg)
                   (Some (default [] (cfg_invalidMailboxKeywords cfg))) = false).
  { unfold Pattern._resolvePattern. rewrite PatternProps.resolvePattern_unfold.
    rewrite Hre. simpl. apply Z.eqb_neq. intros H.
    now apply PatternProps.indexOf_absent in H. }
  unfold MailConfirm.run_check. unfold_run. rewrite Hpat. simpl.
  do 2 eexists. split; [reflexivity|]. simpl. auto.
Qed.

(** X14. A run assigns only behind the gates it passes, on any instance, fresh
    or not: when the pattern gate fails, [mxRecords], [isValidMx],
    [smtpMessages] and [isValidMailbox] are what they were before the run;
    when the run stops at the MX gate or the resolver fails, [smtpMessages]
    and [isValidMailbox] are what they were. Flags of an earlier run on the
    same instance are not reset. *)
Theorem check_assigns_behind_gates (i : Instance) :
  let before := this_state i in
  let after := this_state (snd (check i)) in
  (~ pattern_passes before ->
   mx_members after = mx_members before
   /\ mailbox_members after = mailbox_members before)
  /\ ((forall recs, _resolveMx (hostname before) = Js.Fulfilled recs -> recs = []) ->
      mailbox_members after = mailbox_members before).
Proof using Type.
  cbv zeta. unfold pattern_passes, mx_members, mailbox_members.
  all_paths; (split; [intros; try congruence; auto|]);
    intros Hempty; try reflexivity;
    specialize (Hempty _ eq_refl); discriminate.
Qed.

(** X15. A run neither returns nor throws exactly when the pattern gate passes
    and the resolver never settles, or yields a non-empty list and the probe
    never settles. *)
Theorem check_hangs_iff (i : Instance) :
  let st := this_state i in
  fst (check i) = Hung <->
  pattern_passes st
  /\ (_resolveMx (hostname st) = Js.Pending
      \/ exists recs,
           _resolveMx (hostname st) = Js.Fulfilled recs /\ recs <> []
           /\ _resolveSmtpMailbox (emailAddress st) recs (timeout st) (mailFrom st)
              = Js.Pending).
Proof using Type.
  cbv zeta. unfold pattern_passes.
  all_paths; split; try discriminate; try (intros [H _]; congruence);
    try (intros [_ [H|(recs' & H & Hne & Hp)]]; congruence);
    intros _; (split; [reflexivity|]); eauto.
Qed.

(** X16. On a fresh instance, when [check] returns: the flags are nested
    ([isValidMailbox] implies [isValidMx] implies [isValidPattern]);
    [isValidMx] tells whether [mxRecords] is non-empty; the result is one of
    the five result strings, [Mailbox is valid.] exactly when
    [isValidMailbox] is set and [Email pattern is invalid.] exactly when
    [isValidPattern] is not. *)
Theorem check_flags_and_result (cfg : Config) (st' : State) (i' : Instance) :
  run_check cfg = (Returned st', i') ->
  (isValidMailbox st' = true -> isValidMx st' = true)
  /\ (isValidMx st' = true -> isValidPattern st' = true)
  /\ (isValidMx st' = true <-> mxRecords st' <> [])
  /\ In (result st') results
  /\ (isValidMailbox st' = true <-> result st' = "Mailbox is valid.")
  /\ (isValidPattern st' = false <-> result st' = "Email pattern is invalid.").
Proof using Type.
  unfold MailConfirm.run_check. revert st' i'.
  all_paths; intros st' i' [= <- <-]; simpl; unfold Nat.ltb; simpl.
  all: (split; [solve [intros; congruence]|]).
  all: (split; [solve [intros; congruence]|]).
  all: (split; [solve [split; intros; congruence]|]).
  all: (split; [solve [unfold results; simpl; auto 10]|]).
  all: split; split; intros; congruence.
Qed.

(** X17. On a fresh instance, when [check] throws, the pattern flag is set and
    nothing was assigned behind the failing gate: [result] is still the
    empty string, [smtpMessages] is empty and [isValidMailbox] is false; if
    the error is that of the mailbox check, [isValidMx] is set and
    [mxRecords] holds the list the resolver yielded. *)
Theorem check_state_after_throw (cfg : Config) (e : Js.JsError) :
  let after := this_state (snd (run_check cfg)) in
  fst (run_check cfg) = Threw e ->
  isValidPattern after = true
  /\ result after = EmptyString
  /\ smtpMessages after = []
  /\ isValidMailbox after = false
  /\ (e = mailbox_check_failed ->
      isValidMx after = true
      /\ _resolveMx (hostname (constructor cfg)) = Js.Fulfilled (mxRecords after)).
Proof using Type.
  cbv zeta. unfold MailConfirm.run_check.
  all_paths; intros [= <-]; repeat (split; [reflexivity|]);
    intros; try discriminate; auto.
Qed.

(** What a run throws and yields when the methods keep what the class's
    own ones keep: a resolver that never rejects makes the MX error
    impossible, and a probe that resolves with at least three entries makes
    [Could not validate mailbox.] the result of the longer transcripts. *)
Lemma never_mx_error (i : Instance) :
  (forall h err, _resolveMx h <> Js.Rejected err) ->
  forall e, fst (check i) = Threw e ->
    e = mailbox_check_failed
    /\ exists recs cause,
         _resolveMx (hostname (this_state i)) = Js.Fulfilled recs
         /\ _resolveSmtpMailbox (emailAddress (this_state i)) recs
              (timeout (this_state i)) (mailFrom (this_state i))
            = Js.Rejected cause.
Proof using Type.
  intros Hnever.
  all_paths; intros e [= <-]; eauto.
  exfalso. eapply Hnever. eassumption.
Qed.

Lemma no_mx_result (cfg : Config) :
  pattern_passes (constructor cfg) ->
  _resolveMx (hostname (constructor cfg)) = Js.Fulfilled [] ->
  exists st' i',
    run_check cfg = (Returned st', i')
    /\ this_state i' = st'
    /\ result st' = "Email server is invalid or not available."
    /\ isValidMx st' = false
    /\ mailbox_gate_reached (trace i') = false.
Proof using Type.
  unfold pattern_passes, MailConfirm.run_check. intros Hpat Hmx.
  unfold_run. simpl in Hpat, Hmx. rewrite Hpat. simpl. rewrite Hmx. simpl.
  do 2 eexists. split; [reflexivity|]. simpl. auto.
Qed.

Lemma long_transcripts (cfg : Config) (st' : State) (i' : Instance) :
  (forall e r t m msgs,
     _resolveSmtpMailbox e r t m = Js.Fulfilled msgs -> (3 <= length msgs)%nat) ->
  run_check cfg = (Returned st', i') ->
  mailbox_gate_reached (trace i') = true ->
  (3 <= length (smtpMessages st'))%nat
  /\ (result st' = "Could not validate mailbox." <->
      (3 < length (smtpMessages st'))%nat).
Proof using Type.
  intros Hthree. unfold MailConfirm.run_check. revert st' i'.
  all_paths; intros st' i' [= <- <-]; simpl; try discriminate; intros _;
    pose proof (Hthree _ _ _ _ _ Hprobe) as Hge;
    (split; [lia|]); split; intros; try discriminate; try lia; reflexivity.
Qed.

End Methods.

End RunProps.


(* ===================================================================== *)
(** ** The constructor, the resolver and the status of a reply *)
(* ===================================================================== *)

Module ConstructorProps.
Import MailConfirm Transcript.

Lemma has_at_app (a b : string) : has_at (a +:+ b) = has_at a || has_at b.
Proof.
  induction a as [|c a IH]; [reflexivity|].
  rewrite RegexFacts.append_cons. simpl. rewrite IH. apply orb_assoc.
Qed.

Lemma split_parts_no_at (s : string) :
  has_at s = false -> Js.split_parts "@" s = (s, []).
Proof.
  induction s as [|c s IH]; simpl; [reflexivity|].
  intros H. apply orb_false_iff in H as [Hc Hs].
  rewrite (IH Hs), Hc. reflexivity.
Qed.

Lemma split_parts_at (l d : string) :
  has_at l = false ->
  Js.split_parts "@" (l +:+ String "@" d)
  = (l, fst (Js.split_parts "@" d) :: snd (Js.split_parts "@" d)).
Proof.
  induction l as [|c l IH]; intros H.
  - rewrite RegexFacts.append_nil_l. simpl.
    destruct (Js.split_parts "@" d). reflexivity.
  - simpl in H. apply orb_false_iff in H as [Hc Hl].
    rewrite RegexFacts.append_cons. simpl. rewrite (IH Hl), Hc. reflexivity.
Qed.

Lemma split_second (s : string) :
  Js.split "@" s !! 1%nat = None <-> has_at s = false.
Proof.
  unfold Js.split. induction s as [|c s IH]; simpl; [tauto|].
  destruct (Js.split_parts "@" s) as [h t].
  destruct (Ascii.eqb c "@"); simpl in *; [split; discriminate|exact IH].
Qed.

(** X1. The constructor fills in the options that are missing or falsy: a
    timeout that is undefined or 0 becomes 2000, a sender that is undefined
    or empty becomes [email@example.org], an undefined deny-list becomes the
    empty one; any other value is kept. So the timeout of an instance is
    never 0 and its sender never empty. *)
Theorem constructor_defaults (cfg : Config) :
  timeout (constructor cfg) <> 0
  /\ mailFrom (constructor cfg) <> EmptyString
  /\ (forall n, cfg_timeout cfg = Some n -> n <> 0 -> timeout (constructor cfg) = n)
  /\ (cfg_timeout cfg = None \/ cfg_timeout cfg = Some 0 ->
      timeout (constructor cfg) = 2000)
  /\ (forall s, cfg_mailFrom cfg = Some s -> s <> EmptyString ->
                mailFrom (constructor cfg) = s)
  /\ (cfg_mailFrom cfg = None \/ cfg_mailFrom cfg = Some EmptyString ->
      mailFrom (constructor cfg) = "email@example.org")
  /\ (cfg_invalidMailboxKeywords cfg = None ->
      invalidMailboxKeywords (constructor cfg) = []).
Proof.
  simpl. unfold number_or, string_or.
  split; [|split; [|split; [|split; [|split; [|split]]]]].
  - destruct (cfg_timeout cfg) as [n|]; [|discriminate].
    destruct (Z.eqb_spec n 0); [discriminate|assumption].
  - destruct (cfg_mailFrom cfg) as [[|c s]|]; discriminate.
  - intros n -> Hn. destruct (Z.eqb_spec n 0); congruence.
  - intros [->| ->]; reflexivity.
  - intros s -> Hs. destruct s; congruence.
  - intros [->| ->]; reflexivity.
  - intros ->. reflexivity.
Qed.

(** X2. The constructor cuts the address at its at signs: for [local@rest] with
    no at sign in [local], the mailbox is [local] and the host name is
    [rest] up to its first at sign, so [rest] itself when it has none. *)
Theorem constructor_splits_address (cfg : Config) (l rest : string) :
  cfg_emailAddress cfg = l +:+ String "@" rest ->
  has_at l = false ->
  mailbox (constructor cfg) = Some l
  /\ hostname (constructor cfg) = Some (Pattern.local_part rest)
  /\ (has_at rest = false -> hostname (constructor cfg) = Some rest).
Proof.
  intros Hemail Hl. simpl. rewrite Hemail. unfold Js.split.
  rewrite (split_parts_at l rest Hl). simpl.
  rewrite PatternProps.split_parts_fst.
  split; [reflexivity|]. split; [reflexivity|].
  intros Hrest. rewrite <- PatternProps.split_parts_fst.
  now rewrite (split_parts_no_at rest Hrest).
Qed.

(** X3. The host name of an instance is undefined exactly when the address has
    no at sign, and then the mailbox is the whole address; every address
    the pattern accepts has a host name. *)
Theorem hostname_undefined_iff (cfg : Config) :
  (hostname (constructor cfg) = None <-> has_at (cfg_emailAddress cfg) = false)
  /\ (has_at (cfg_emailAddress cfg) = false ->
      mailbox (constructor cfg) = Some (cfg_emailAddress cfg))
  /\ (Regex.test Regex.email_re (cfg_emailAddress cfg) = true ->
      exists h, hostname (constructor cfg) = Some h).
Proof.
  simpl. split; [apply split_second|]. split.
  - intros H. unfold Js.split. now rewrite (split_parts_no_at _ H).
  - intros Hre. apply Regex_test_iff in Hre.
    assert (Hat : has_at (cfg_emailAddress cfg) = true).
    { unfold Regex.email_re in Hre.
      inversion Hre as [| |? ? s1 s2 _ H2| | | |]; subst.
      inversion H2 as [| |? ? s3 s4 H3 _| | | |]; subst.
      unfold Regex.Chr in H3. inversion H3 as [|? c Hc| | | | |]; subst.
      apply Ascii.eqb_eq in Hc. subst c.
      rewrite !has_at_app. simpl. apply orb_true_r. }
    destruct (Js.split "@" (cfg_emailAddress cfg) !! 1%nat) as [h|] eqn:E;
      [eauto|].
    apply split_second in E. congruence.
Qed.

End ConstructorProps.

Module ResolverProps.
Import Mx.

(** X4. When DNS answers with records, the list [resolveMx] yields has as many
    records, and its first one, the one the probe will connect to, is a
    record of the answer whose priority number is the lowest of all. *)
Theorem resolveMx_best_first
    (dns_resolveMx : option string -> Js.awaited (list MxRecord))
    (hostname : option string) (recs : list MxRecord) :
  dns_resolveMx hostname = Js.Fulfilled recs ->
  recs <> [] ->
  exists best others,
    resolveMx dns_resolveMx hostname = Js.Fulfilled (best :: others)
    /\ length (best :: others) = length recs
    /\ In best recs
    /\ Forall (fun r => priority best <= priority r) recs.
Proof.
  intros Hdns Hne. unfold resolveMx. rewrite Hdns.
  pose proof (MxProps.sort_perm by_priority recs) as Hperm.
  pose proof (MxProps.sort_by_priority_sorted recs) as Hsorted.
  destruct (Js.sort by_priority recs) as [|best others] eqn:E.
  - apply Permutation_nil_r in Hperm. congruence.
  - exists best, others. split; [reflexivity|]. split; [|split].
    + symmetry. now apply Permutation_length.
    + apply (Permutation_in best (Permutation_sym Hperm)). now left.
    + inversion Hsorted as [|? ? _ Hall]; subst.
      eapply Permutation_Forall; [apply Permutation_sym; exact Hperm|].
      constructor; [unfold priority_le in *; lia|].
      eapply Forall_impl; [exact Hall|]. intros r Hr. exact Hr.
Qed.

End ResolverProps.

Module StatusProps.
Import Transcript.

(** X5. A reply that starts with three decimal digits has the number they
    write as its status, whatever follows them (leading zeros included: no
    octal, no hexadecimal reading). *)
Theorem status_of_three_digits (a b c : nat) (rest : string) :
  (a < 10)%nat -> (b < 10)%nat -> (c < 10)%nat ->
  Js.parseInt (Js.substring 0 3
                 (String (digit a) (String (digit b) (String (digit c) rest))))
  = Js.Num (Z.of_nat (100 * a + 10 * b + c)).
Proof.
  intros Ha Hb Hc.
  replace (Js.substring 0 3
             (String (digit a) (String (digit b) (String (digit c) rest))))
    with (String (digit a) (String (digit b) (String (digit c) EmptyString)))
    by (destruct rest; reflexivity).
  assert (Hall :
    forallb (fun a => forallb (fun b => forallb (fun c =>
      match Js.parseInt (String (digit a) (String (digit b)
                           (String (digit c) EmptyString))) with
      | Js.Num z => z =? Z.of_nat (100 * a + 10 * b + c)
      | Js.NaN => false
      end) (seq 0 10)) (seq 0 10)) (seq 0 10) = true)
    by (vm_compute; reflexivity).
  rewrite forallb_forall in Hall.
  specialize (Hall a ltac:(apply in_seq; lia)).
  rewrite forallb_forall in Hall.
  specialize (Hall b ltac:(apply in_seq; lia)).
  rewrite forallb_forall in Hall.
  specialize (Hall c ltac:(apply in_seq; lia)).
  destruct (Js.parseInt _) as [|z]; [discriminate|].
  apply Z.eqb_eq in Hall. now subst z.
Qed.

End StatusProps.


(* ===================================================================== *)
(** ** Runs of [check()] with the methods of the class *)
(* ===================================================================== *)

Module DefaultRunProps.
Import MailConfirm Run Transcript.

Lemma resolveMx_not_rejected dns h err :
  Mx._resolveMx dns h <> Js.Rejected err.
Proof.
  unfold Mx._resolveMx, Mx.resolveMx. destruct (dns h); discriminate.
Qed.

(** X18. With the resolver of the class, [check] never throws the error [MX
    record check failed.]: whatever DNS does, the only error a run can throw
    is [Mailbox check failed.]. *)
Theorem check_default_never_mx_error
    (dns_resolveMx : option string -> Js.awaited (list Mx.MxRecord))
    (network : list Smtp.event) (i : Instance) (e : Js.JsError) :
  fst (check_default dns_resolveMx network i) = Threw e ->
  e = mailbox_check_failed /\ e <> mx_check_failed.
Proof.
  unfold check_default. intros Hthrow.
  destruct (RunProps.never_mx_error _ _ i
              (fun h err => resolveMx_not_rejected dns_resolveMx h err) e Hthrow)
    as [-> _].
  split; [reflexivity|discriminate].
Qed.

(** X19. With the resolver of the class, a failed DNS lookup and an empty DNS
    answer are told apart by nothing: in both cases [check] returns with the
    result [Email server is invalid or not available.] and [isValidMx]
    false, and the probe is not called. *)
Theorem dns_failure_is_no_mx
    (dns_resolveMx : option string -> Js.awaited (list Mx.MxRecord))
    (network : list Smtp.event) (cfg : Config) :
  pattern_passes (constructor cfg) ->
  (exists err, dns_resolveMx (hostname (constructor cfg)) = Js.Rejected err)
  \/ dns_resolveMx (hostname (constructor cfg)) = Js.Fulfilled [] ->
  exists st' i',
    run_check_default dns_resolveMx network cfg = (Returned st', i')
    /\ this_state i' = st'
    /\ result st' = "Email server is invalid or not available."
    /\ isValidMx st' = false
    /\ mxRecords st' = []
    /\ mailbox_gate_reached (trace i') = false.
Proof.
  intros Hpat Hdns.
  assert (Hmx : Mx._resolveMx dns_resolveMx (hostname (constructor cfg))
                = Js.Fulfilled []).
  { unfold Mx._resolveMx, Mx.resolveMx.
    destruct Hdns as [[err ->]| ->]; reflexivity. }
  unfold run_check_default, check_default.
  unfold pattern_passes in Hpat.
  MailConfirmProps.run_path. simpl in Hpat, Hmx. rewrite Hpat. simpl.
  rewrite Hmx. simpl.
  do 2 eexists. split; [reflexivity|]. simpl. auto 10.
Qed.

(** X20. With the probe of the class, a transcript that reaches [check] has at
    least three entries, so the result [Could not validate mailbox.] is that
    of the transcripts of more than three entries: those of sessions in
    which some reply had a status of 200 or less, or no status at all. *)
Theorem could_not_validate_iff_long
    (dns_resolveMx : option string -> Js.awaited (list Mx.MxRecord))
    (network : list Smtp.event) (cfg : Config) (st' : State) (i' : Instance) :
  forallb from_network network = true ->
  run_check_default dns_resolveMx network cfg = (Returned st', i') ->
  mailbox_gate_reached (trace i') = true ->
  (3 <= length (smtpMessages st'))%nat
  /\ (result st' = "Could not validate mailbox." <->
      (3 < length (smtpMessages st'))%nat).
Proof.
  intros Hnet Hrun Hgate.
  apply (RunProps.long_transcripts
           (Mx._resolveMx dns_resolveMx)
           (fun emailAddress mxRecords timeout mailFrom =>
              Smtp.resolveSmtpMailbox emailAddress mxRecords timeout mailFrom
                                      network)
           cfg st' i'); [|exact Hrun|exact Hgate].
  intros e r t m msgs. now apply SessionProps.resolved_at_least_three.
Qed.

End DefaultRunProps.


(* ===================================================================== *)
(** ** The properties on concrete sessions and runs *)
(* ===================================================================== *)

Module Concrete.
Import MailConfirm Run Transcript Scenario.

Local Abbreviation mx1 :=
  {| Mx.priority := 10; Mx.exchange := "mx.example.org" |}.
Local Abbreviation probe_of evs :=
  (Smtp.resolveSmtpMailbox "user@example.org" Smtp.example_mx 2000
                           "email@example.org" evs).
Local Abbreviation session_of evs :=
  (Smtp.session "user@example.org" Smtp.example_mx 2000 "email@example.org" evs).

(** Four events, two of them replies: two entries, the second one for the
    reply that came after the error. *)
Lemma transcript_is_replies_witness :
  map reply_of (Smtp.smtpMessages (session_of broken_replies))
    = map parse_reply (replies broken_replies)
  /\ length (Smtp.smtpMessages (session_of broken_replies))
     = length (replies broken_replies).
Proof.
  exact (SessionProps.transcript_is_replies
           "user@example.org" Smtp.example_mx 2000 "email@example.org"
           mx1 broken_replies eq_refl).
Defined.

(** The session with a 150 line before the greeting resolves with four
    entries, three of them positive. *)
Lemma resolved_transcript_shape_witness :
  let msgs := match probe_of slow_replies with
              | Js.Fulfilled msgs => msgs
              | _ => []
              end in
  probe_of slow_replies = Js.Fulfilled msgs
  /\ length msgs = 4%nat
  /\ count_positive msgs = 3%nat.
Proof.
  cbv zeta. split; [vm_compute; reflexivity|]. split; [vm_compute; reflexivity|].
  apply (SessionProps.resolved_transcript_shape
           "user@example.org" Smtp.example_mx 2000 "email@example.org"
           slow_replies).
  - vm_compute. reflexivity.
  - vm_compute. reflexivity.
Defined.

Lemma error_rejects_witness :
  probe_of ([Smtp.EvData "220 mx.example.org ESMTP ready"]
            ++ Smtp.EvError (Js.MkError "ECONNRESET")
               :: [Smtp.EvData "250 too late"; Smtp.EvClose])
    = Js.Rejected (Js.MkError "ECONNRESET")
  /\ Smtp.ended
       (session_of ([Smtp.EvData "220 mx.example.org ESMTP ready"]
                    ++ Smtp.EvError (Js.MkError "ECONNRESET")
                       :: [Smtp.EvData "250 too late"; Smtp.EvClose]))
     = true.
Proof.
  apply (SessionProps.error_rejects
           "user@example.org" Smtp.example_mx 2000 "email@example.org" mx1).
  - reflexivity.
  - vm_compute. reflexivity.
Defined.

Lemma check_invalid_pattern_witness :
  exists st' i',
    run_check (Mx._resolveMx dns_example) (probe_against Smtp.positive_replies)
              denied_cfg = (Returned st', i')
    /\ this_state i' = st'
    /\ result st' = "Email pattern is invalid."
    /\ isValidPattern st' = false
    /\ calls (trace i') = [Call_resolvePattern "noreply" ["noreply"]%string].
Proof.
  apply (RunProps.check_invalid_pattern
           (Mx._resolveMx dns_example) (probe_against Smtp.positive_replies)
           denied_cfg).
  - vm_compute. reflexivity.
  - simpl. left. reflexivity.
Defined.

(** A second run on an instance whose address is now denied leaves the
    mailbox flag of the first run set. *)
Lemma check_assigns_behind_gates_witness :
  isValidMailbox
    (this_state (snd (check (Mx._resolveMx dns_example)
                            (probe_against Smtp.positive_replies)
                            used_instance)))
  = true
  /\ isValidPattern
       (this_state (snd (check (Mx._resolveMx dns_example)
                               (probe_against Smtp.positive_replies)
                               used_instance)))
     = false.
Proof.
  split; [|vm_compute; reflexivity].
  destruct (RunProps.check_assigns_behind_gates
              (Mx._resolveMx dns_example) (probe_against Smtp.positive_replies)
              used_instance) as [Hpattern _].
  destruct Hpattern as [_ Hmailbox].
  - unfold pattern_passes. vm_compute. discriminate.
  - exact (f_equal snd Hmailbox).
Defined.

(** The stalled session makes [check] wait for ever. *)
Lemma check_hangs_iff_witness :
  fst (check (Mx._resolveMx dns_example) (probe_against stalling_replies)
             (fresh user_cfg)) = Hung.
Proof.
  apply (RunProps.check_hangs_iff
           (Mx._resolveMx dns_example) (probe_against stalling_replies)
           (fresh user_cfg)).
  split; [vm_compute; reflexivity|].
  right. exists (Js.sort Mx.by_priority two_records).
  split; [reflexivity|]. split; [discriminate|]. vm_compute. reflexivity.
Defined.

Lemma check_flags_and_result_witness :
  let r := run_check (Mx._resolveMx dns_example)
                     (probe_against Smtp.positive_replies) user_cfg in
  r = (Returned (this_state (snd r)), snd r)
  /\ isValidMx (this_state (snd r)) = true
  /\ In (result (this_state (snd r))) results.
Proof.
  cbv zeta.
  assert (Hrun :
    run_check (Mx._resolveMx dns_example) (probe_against Smtp.positive_replies)
              user_cfg
    = (Returned (this_state (snd (run_check (Mx._resolveMx dns_example)
                                    (probe_against Smtp.positive_replies)
                                    user_cfg))),
       snd (run_check (Mx._resolveMx dns_example)
              (probe_against Smtp.positive_replies) user_cfg)))
    by (vm_compute; reflexivity).
  destruct (RunProps.check_flags_and_result _ _ _ _ _ Hrun)
    as (Hmailbox & _ & _ & Hresult & _).
  split; [exact Hrun|]. split; [|exact Hresult].
  apply Hmailbox. vm_compute. reflexivity.
Defined.

(** A refused connection: the run throws and the result is still empty. *)
Lemma check_state_after_throw_witness :
  result (this_state (snd (run_check (Mx._resolveMx dns_example)
                             (probe_against broken_replies) user_cfg)))
  = EmptyString
  /\ isValidMx (this_state (snd (run_check (Mx._resolveMx dns_example)
                                   (probe_against broken_replies) user_cfg)))
     = true.
Proof.
  destruct (RunProps.check_state_after_throw
              (Mx._resolveMx dns_example) (probe_against broken_replies)
              user_cfg mailbox_check_failed)
    as (_ & Hresult & _ & _ & Hmx).
  - vm_compute. reflexivity.
  - split; [exact Hresult|]. apply Hmx. reflexivity.
Defined.

Lemma check_default_never_mx_error_witness :
  fst (check_default dns_example broken_replies (fresh user_cfg))
    = Threw mailbox_check_failed
  /\ mailbox_check_failed <> mx_check_failed.
Proof.
  split; [vm_compute; reflexivity|].
  apply (DefaultRunProps.check_default_never_mx_error
           dns_example broken_replies (fresh user_cfg) mailbox_check_failed).
  vm_compute. reflexivity.
Defined.

Lemma dns_failure_is_no_mx_witness :
  exists st' i',
    run_check_default dns_not_found Smtp.positive_replies no_mx_cfg
      = (Returned st', i')
    /\ this_state i' = st'
    /\ result st' = "Email server is invalid or not available."
    /\ isValidMx st' = false
    /\ mxRecords st' = []
    /\ mailbox_gate_reached (trace i') = false.
Proof.
  apply (DefaultRunProps.dns_failure_is_no_mx
           dns_not_found Smtp.positive_replies no_mx_cfg).
  - vm_compute. reflexivity.
  - left. eexists. reflexivity.
Defined.

(** The 150 line before the greeting makes a transcript of four entries,
    and the result says so. *)
Lemma could_not_validate_iff_long_witness :
  let r := run_check_default dns_example slow_replies user_cfg in
  r = (Returned (this_state (snd r)), snd r)
  /\ length (smtpMessages (this_state (snd r))) = 4%nat
  /\ result (this_state (snd r)) = "Could not validate mailbox.".
Proof.
  cbv zeta.
  assert (Hrun :
    run_check_default dns_example slow_replies user_cfg
    = (Returned (this_state (snd (run_check_default dns_example slow_replies
                                    user_cfg))),
       snd (run_check_default dns_example slow_replies user_cfg)))
    by (vm_compute; reflexivity).
  destruct (DefaultRunProps.could_not_validate_iff_long
              dns_example slow_replies user_cfg _ _
              ltac:(vm_compute; reflexivity) Hrun
              ltac:(vm_compute; reflexivity)) as [_ [_ Hlong]].
  assert (Hlen : length (smtpMessages
                   (this_state (snd (run_check_default dns_example slow_replies
                                       user_cfg)))) = 4%nat)
    by (vm_compute; reflexivity).
  split; [exact Hrun|]. split; [exact Hlen|].
  apply Hlong. rewrite Hlen. lia.
Defined.

(** A timeout of 0 becomes 2000, an undefined sender the placeholder. *)
Lemma constructor_defaults_witness :
  timeout (constructor user_cfg) = 2000
  /\ mailFrom (constructor user_cfg) = "email@example.org"
  /\ timeout (constructor denied_cfg) = 500.
Proof.
  destruct (ConstructorProps.constructor_defaults user_cfg)
    as (_ & _ & _ & Htimeout & _ & Hfrom & _).
  destruct (ConstructorProps.constructor_defaults denied_cfg)
    as (_ & _ & Hkeep & _).
  split; [apply Htimeout; right; reflexivity|].
  split; [apply Hfrom; left; reflexivity|].
  apply Hkeep; [reflexivity|discriminate].
Defined.

Lemma constructor_splits_address_witness :
  mailbox (constructor user_cfg) = Some "user"%string
  /\ hostname (constructor user_cfg) = Some "example.org"%string.
Proof.
  destruct (ConstructorProps.constructor_splits_address
              user_cfg "user" "example.org" eq_refl eq_refl)
    as (Hmailbox & _ & Hhost).
  split; [exact Hmailbox|]. apply Hhost. reflexivity.
Defined.

Lemma hostname_undefined_iff_witness :
  hostname (constructor denied_cfg) = None
  /\ exists h, hostname (constructor user_cfg) = Some h.
Proof.
  split.
  - apply (proj1 (ConstructorProps.hostname_undefined_iff denied_cfg)).
    reflexivity.
  - apply (proj2 (proj2 (ConstructorProps.hostname_undefined_iff user_cfg))).
    vm_compute. reflexivity.
Defined.

Lemma resolveMx_best_first_witness :
  exists best others,
    Mx.resolveMx dns_example (Some "example.org"%string)
      = Js.Fulfilled (best :: others)
    /\ length (best :: others) = length two_records
    /\ In best two_records
    /\ Forall (fun r => Mx.priority best <= Mx.priority r) two_records.
Proof.
  apply (ResolverProps.resolveMx_best_first
           dns_example (Some "example.org"%string) two_records).
  - reflexivity.
  - discriminate.
Defined.

Lemma status_of_three_digits_witness :
  Js.parseInt (Js.substring 0 3
                 (String (digit 2) (String (digit 5) (String (digit 0)
                    " 2.1.0 OK"))))
  = Js.Num 250
  /\ String (digit 2) (String (digit 5) (String (digit 0) " 2.1.0 OK"))
     = "250 2.1.0 OK"%string.
Proof.
  split; [|reflexivity].
  apply (StatusProps.status_of_three_digits 2 5 0 " 2.1.0 OK"); lia.
Defined.

End Concrete.


(* ===================================================================== *)
(** ** What a reply does to a session *)
(* ===================================================================== *)

Module ReplyProps.
Import Smtp Transcript.


Section Reply.
Variables (emailAddress mailFrom host : string).

Local Abbreviation commands := (Smtp.commands emailAddress mailFrom host).
Local Abbreviation line := (Smtp.line emailAddress mailFrom host).
Local Abbreviation on_data := (Smtp.on_data emailAddress mailFrom host).
Local Abbreviation deliver := (Smtp.deliver emailAddress mailFrom host).


End Reply.



End ReplyProps.

